(** * WebviewEditor: panel lifecycle and invalidation-on-reveal protocol

    A shallow embedding of [src/webviews/Webview.ts].  The abstract class
    [WebviewEditor] owns three private fields ([panel], [disposablePanel],
    [invalidateOnVisible]) and talks to the editor host (the [vscode]
    module), to the settings helper [getCustomSettings] and to the console.

    The host is not part of this file's source: it is an interface
    ([Host]) whose answers are taken as they come; every call the
    controller makes across that interface is written to a trace, so that
    calls can be counted.  A method is a computation in the monad [M]:
    it reads and writes the controller's fields, threads the host's own
    state, appends to the trace, and either returns or throws (for an
    [async] method: resolves or rejects).

    Methods are modelled run to completion: [show] suspends once, at the
    content fetch, and its continuation is taken to run before any other
    method of the controller does.  Host callbacks are steps of their
    own; the one callback the host can run in the middle of a method is
    the dispose listener, when the unit that holds the panel is
    released: [release] models that, and [dispose] and [onPanelDisposed]
    are the case in which the host fires nothing meanwhile. *)

From Stdlib Require Import String List Bool ZArith Lia PeanoNat.
Import ListNotations.
Local Open Scope string_scope.
Local Open Scope list_scope.

Set Implicit Arguments.
Set Warnings "-register-all".

(** ** Values exchanged with the host *)

(** [any] of TypeScript, as far as a message received as JSON can hold it. *)
Inductive JsValue : Type :=
| JsNull
| JsBool (b : bool)
| JsNumber (n : Z)
| JsString (s : string)
| JsArray (items : list JsValue)
| JsObject (fields : list (string * JsValue)).

(** Modelled from the spec: [IThemeCustomSettings] is declared in
    [extensions/interfaces/itheme-custom-properties], outside this file's
    source; the spec calls it a full configuration snapshot.  The
    controller never looks inside it. *)
Definition IThemeCustomSettings : Type := JsValue.

Inductive Scope : Type := ScopeUser | ScopeWorkspace.

(** [type Message = SaveSettingsMessage | SettingsChangedMessage].  What
    arrives from the webview is checked at run time only through its
    [type] field, so an object carrying any other tag is a value the
    handler can receive too. *)
Inductive Message : Type :=
| SettingsChangedMessage (config : IThemeCustomSettings)
| SaveSettingsMessage (changes : list (string * JsValue)) (removes : list string)
    (scope : Scope) (uri : string)
| OtherMessage (type : string) (fields : list (string * JsValue)).

(** The [type] field of a message. *)
Definition message_type (m : Message) : string :=
  match m with
  | SettingsChangedMessage _ => "settingsChanged"
  | SaveSettingsMessage _ _ _ _ => "saveSettings"
  | OtherMessage t _ => t
  end.

(** What the message listener is handed: a message, [null], or
    [undefined]. *)
Inductive Inbound : Type :=
| InNull
| InUndefined
| InMessage (m : Message).

(** [type Invalidates = 'all' | 'config' | undefined]: the two classes,
    and [option] for [undefined]. *)
Inductive InvalidationClass : Type := InvAll | InvConfig.
Definition Invalidates : Type := option InvalidationClass.

Definition is_all (i : Invalidates) : bool :=
  match i with Some InvAll => true | _ => false end.

(** JavaScript truthiness of an [Invalidates]: both strings are non-empty. *)
Definition truthy (i : Invalidates) : bool :=
  match i with Some _ => true | None => false end.

Inductive ViewColumn : Type := Active | Beside | One | Two | Three.

Record WebviewPanelOptions : Type := {
  retainContextWhenHidden : bool;
  enableFindWidget : bool;
  enableCommandUris : bool;
  enableScripts : bool
}.

(** A panel is an opaque handle of the host. *)
Definition WebviewPanel : Type := nat.

Inductive PanelEvent : Type := OnDidDispose | OnDidChangeViewState | OnDidReceiveMessage.

(** The three methods registered as listeners. *)
Inductive Handler : Type := HOnPanelDisposed | HOnViewStateChanged | HOnMessageReceived.

(** [Disposable]: a panel, an event subscription, or [Disposable.from]
    of several. *)
Inductive Disposable : Type :=
| DisposablePanel (p : WebviewPanel)
| DisposableListener (p : WebviewPanel) (e : PanelEvent) (h : Handler)
| DisposableFrom (items : list Disposable).

Record TextDocument : Type := { getText : string }.

Inductive JsError : Type :=
| HostError (reason : string)
| TypeError.

Record WebviewPanelOnDidChangeViewStateEvent : Type := {
  webviewPanel : WebviewPanel;
  visible : bool
}.

(** What a [console.log] line is about (its text is not rendered). *)
Inductive LogLine : Type :=
| LogViewStateChanged (v : bool)
| LogMessageReceived (m : Message).

(** ** The trace: every call that leaves the controller *)

Inductive Call : Type :=
| OpenTextDocument (path : string)
| CreateWebviewPanel (viewType title : string) (column : ViewColumn)
    (options : WebviewPanelOptions)
| SetHtml (p : WebviewPanel) (html : string)
| Reveal (p : WebviewPanel) (column : ViewColumn)
| PostMessage (p : WebviewPanel) (m : Message)
| Subscribe (p : WebviewPanel) (e : PanelEvent) (h : Handler)
| DisposeOf (d : Disposable)
| GetCustomSettings
  (* Modelled from the spec: the write to the settings store that the
     spec names for [saveSettings]; [helpers/settings] is outside this
     file's source and no method below issues this call. *)
| ApplySettings (changes : list (string * JsValue)) (removes : list string)
    (scope : Scope) (uri : string)
| ConsoleLog (l : LogLine).

Definition is_create (c : Call) : bool :=
  match c with CreateWebviewPanel _ _ _ _ => true | _ => false end.

Definition is_post (c : Call) : bool :=
  match c with PostMessage _ _ => true | _ => false end.

Definition is_release (c : Call) : bool :=
  match c with DisposeOf _ => true | _ => false end.

Definition is_log (c : Call) : bool :=
  match c with ConsoleLog _ => true | _ => false end.

(** Calls to the three collaborators (panel host, content source,
    settings store): everything but the console. *)
Definition is_delegated (c : Call) : bool := negb (is_log c).

Definition count (f : Call -> bool) (t : list Call) : nat := length (filter f t).

(** ** The host interface *)

(** The answers of the host.  [H] is the host's own state; a call may
    change it.  Of all the calls only the content fetch is taken to
    fail (it is the one failure the design names); what
    [webview.postMessage] answers is the boolean that [postMessage]
    tests. *)
Class Host (H : Type) : Type := {
  host_openTextDocument : string -> H -> (JsError + TextDocument) * H;
  host_createWebviewPanel :
    string -> string -> ViewColumn -> WebviewPanelOptions -> H -> WebviewPanel * H;
  host_setHtml : WebviewPanel -> string -> H -> H;
  host_reveal : WebviewPanel -> ViewColumn -> H -> H;
  host_postMessage : WebviewPanel -> Message -> H -> bool * H;
  host_subscribe : WebviewPanel -> PanelEvent -> Handler -> H -> H;
  host_dispose : Disposable -> H -> H;
  host_getCustomSettings : H -> IThemeCustomSettings * H
}.

Record ExtensionContext : Type := { asAbsolutePath : string -> string }.

(** The abstract getters a concrete editor supplies. *)
Record EditorMembers : Type := {
  filename : string;
  id : string;
  title : string;
  context : ExtensionContext
}.

(** ** The controller's fields *)

Record WebviewEditor : Type := {
  panel : option WebviewPanel;
  disposablePanel : option Disposable;
  invalidateOnVisible : Invalidates
}.

(** A freshly constructed controller: all three fields [undefined]. *)
Definition new_editor : WebviewEditor :=
  {| panel := None; disposablePanel := None; invalidateOnVisible := None |}.

Definition with_panel (p : option WebviewPanel) (e : WebviewEditor) : WebviewEditor :=
  {| panel := p; disposablePanel := disposablePanel e;
     invalidateOnVisible := invalidateOnVisible e |}.

Definition with_disposablePanel (d : option Disposable) (e : WebviewEditor) : WebviewEditor :=
  {| panel := panel e; disposablePanel := d;
     invalidateOnVisible := invalidateOnVisible e |}.

Definition with_invalidateOnVisible (i : Invalidates) (e : WebviewEditor) : WebviewEditor :=
  {| panel := panel e; disposablePanel := disposablePanel e;
     invalidateOnVisible := i |}.

(** ** The monad of methods *)

Inductive Outcome (A : Type) : Type :=
| Returned (a : A)
| Threw (e : JsError).
Arguments Threw {A} e.

Record World (H : Type) : Type := {
  this : WebviewEditor;
  host : H
}.

Record Run (H A : Type) : Type := mkRun {
  outcome : Outcome A;
  world : World H;
  calls : list Call
}.

Definition M (H A : Type) : Type := World H -> Run H A.

Definition ret {H A} (a : A) : M H A :=
  fun w => {| outcome := Returned a; world := w; calls := [] |}.

Definition throw {H A} (e : JsError) : M H A :=
  fun w => {| outcome := Threw e; world := w; calls := [] |}.

Definition bind {H A B} (m : M H A) (k : A -> M H B) : M H B :=
  fun w =>
    match m w with
    | mkRun (Returned a) w1 c1 =>
        match k a w1 with
        | mkRun o w2 c2 => mkRun o w2 (c1 ++ c2)
        end
    | mkRun (Threw e) w1 c1 => mkRun (Threw e) w1 c1
    end.

(** A promise handed on without being awaited: its rejection is a value. *)
Definition settle {H A} (m : M H A) : M H (Outcome A) :=
  fun w =>
    match m w with
    | mkRun o w1 c1 => mkRun (Returned o) w1 c1
    end.

Declare Scope method_scope.
Delimit Scope method_scope with method.
Notation "x <- m ;; k" := (bind m (fun x => k))
  (at level 61, m at next level, right associativity) : method_scope.
Notation "m ;; k" := (bind m (fun _ => k))
  (at level 61, right associativity) : method_scope.
Local Open Scope method_scope.

Definition get_this {H} : M H WebviewEditor :=
  fun w => {| outcome := Returned (this w); world := w; calls := [] |}.

Definition update_this {H} (f : WebviewEditor -> WebviewEditor) : M H unit :=
  fun w => {| outcome := Returned tt;
              world := {| this := f (this w); host := host w |};
              calls := [] |}.

(** A host call with an answer, logged. *)
Definition ask {H A} (c : Call) (f : H -> A * H) : M H A :=
  fun w =>
    match f (host w) with
    | (a, h) => mkRun (Returned a) {| this := this w; host := h |} [c]
    end.

(** A host call without an answer, logged. *)
Definition tell {H} (c : Call) (f : H -> H) : M H unit :=
  ask c (fun h => (tt, f h)).

Definition console_log {H} (l : LogLine) : M H unit :=
  tell (ConsoleLog l) (fun h => h).

(** ** The methods of [WebviewEditor] *)

Section Methods.

Context {H : Type} {HH : Host H}.
Variable self : EditorMembers.

(** The fixed options of [window.createWebviewPanel] in [show]. *)
Definition panel_options : WebviewPanelOptions :=
  {| retainContextWhenHidden := true;
     enableFindWidget := true;
     enableCommandUris := true;
     enableScripts := true |}.

(** [Workspace.openTextDocument(path)], awaited: a rejection is thrown. *)
Definition openTextDocument (path : string) : M H TextDocument :=
  r <- ask (OpenTextDocument path) (host_openTextDocument path) ;;
  match r with
  | inl e => throw e
  | inr doc => ret doc
  end.

Definition createWebviewPanel (viewType ttl : string) (column : ViewColumn)
    (options : WebviewPanelOptions) : M H WebviewPanel :=
  ask (CreateWebviewPanel viewType ttl column options)
      (host_createWebviewPanel viewType ttl column options).

Definition set_html (p : WebviewPanel) (html : string) : M H unit :=
  tell (SetHtml p html) (host_setHtml p html).

Definition reveal (p : WebviewPanel) (column : ViewColumn) : M H unit :=
  tell (Reveal p column) (host_reveal p column).

Definition webview_postMessage (p : WebviewPanel) (m : Message) : M H bool :=
  ask (PostMessage p m) (host_postMessage p m).

(** [panel.onDid...(handler, this)]: registers and returns the
    subscription's disposable. *)
Definition subscribe (p : WebviewPanel) (e : PanelEvent) (h : Handler) : M H Disposable :=
  tell (Subscribe p e h) (host_subscribe p e h) ;;
  ret (DisposableListener p e h).

Definition disposable_dispose (d : Disposable) : M H unit :=
  tell (DisposeOf d) (host_dispose d).

Definition getCustomSettings : M H IThemeCustomSettings :=
  ask GetCustomSettings host_getCustomSettings.

(** [dispose()], lines 48-52. *)
Definition dispose : M H unit :=
  e <- get_this ;;
  match disposablePanel e with
  | Some d => disposable_dispose d
  | None => ret tt
  end.

(** [getHtml()], lines 54-57. *)
Definition getHtml : M H string :=
  doc <- openTextDocument (asAbsolutePath (context self) (filename self)) ;;
  ret (getText doc).

(** The default value of a parameter: taken when the argument is
    [undefined]. *)
Definition default_invalidates (invalidates : Invalidates) : Invalidates :=
  match invalidates with
  | None => Some InvAll
  | Some c => Some c
  end.

(** [postMessage(message, invalidates = 'all')], lines 59-72. *)
Definition postMessage (message : Message) (invalidates : Invalidates) : M H bool :=
  let invalidates := default_invalidates invalidates in
  e <- get_this ;;
  match panel e with
  | None => ret false
  | Some p =>
      result <- webview_postMessage p message ;;
      e <- get_this ;;
      (if negb result && negb (is_all (invalidateOnVisible e))
       then update_this (with_invalidateOnVisible invalidates)
       else ret tt) ;;
      ret result
  end.

(** [postUpdatedConfiguration()], lines 74-80. *)
Definition postUpdatedConfiguration : M H bool :=
  config <- getCustomSettings ;;
  postMessage (SettingsChangedMessage config) (Some InvConfig).

(** [onPanelDisposed()], lines 82-88. *)
Definition onPanelDisposed : M H unit :=
  e <- get_this ;;
  (match disposablePanel e with
   | Some d => disposable_dispose d
   | None => ret tt
   end) ;;
  update_this (with_panel None).

(** [show()], lines 127-157. *)
Definition show : M H unit :=
  html <- getHtml ;;
  e <- get_this ;;
  match panel e with
  | Some p =>
      set_html p html ;;
      reveal p Active
  | None =>
      p <- createWebviewPanel (id self) (title self) Active panel_options ;;
      update_this (with_panel (Some p)) ;;
      s1 <- subscribe p OnDidDispose HOnPanelDisposed ;;
      s2 <- subscribe p OnDidChangeViewState HOnViewStateChanged ;;
      s3 <- subscribe p OnDidReceiveMessage HOnMessageReceived ;;
      update_this (with_disposablePanel
                     (Some (DisposableFrom [DisposablePanel p; s1; s2; s3]))) ;;
      set_html p html
  end.

(** What [onViewStateChanged] returns: nothing, the boolean of the
    push, or the promise of [show]. *)
Inductive ViewStateReturn : Type :=
| RetUndefined
| RetPosted (delivered : bool)
| RetShown (promise : Outcome unit).

(** [onViewStateChanged(event)], lines 90-108. *)
Definition onViewStateChanged (event : WebviewPanelOnDidChangeViewStateEvent)
    : M H ViewStateReturn :=
  console_log (LogViewStateChanged (visible event)) ;;
  e <- get_this ;;
  if negb (truthy (invalidateOnVisible e)) || negb (visible event)
  then ret RetUndefined
  else
    let invalidContext := invalidateOnVisible e in
    update_this (with_invalidateOnVisible None) ;;
    match invalidContext with
    | Some InvConfig =>
        b <- postUpdatedConfiguration ;;
        ret (RetPosted b)
    | _ =>
        r <- settle show ;;
        ret (RetShown r)
    end.

(** [onMessageReceived(event)], lines 110-125.  Reading [event.type]
    of [undefined] throws; the [saveSettings] case holds a comment and
    a [return]. *)
Definition onMessageReceived (event : Inbound) : M H unit :=
  match event with
  | InNull => ret tt
  | InUndefined => throw TypeError
  | InMessage m =>
      console_log (LogMessageReceived m) ;;
      if String.eqb (message_type m) "saveSettings"
      then ret tt
      else ret tt
  end.

(** ** The controller as a state machine *)

Inductive Op : Type :=
| OpShow
| OpDispose
| OpOnPanelDisposed
| OpOnViewStateChanged (event : WebviewPanelOnDidChangeViewStateEvent)
| OpPostMessage (message : Message) (invalidates : Invalidates)
| OpPostUpdatedConfiguration
| OpOnMessageReceived (event : Inbound).

Definition forget {A} (m : M H A) : M H unit := m ;; ret tt.

Definition exec (op : Op) : M H unit :=
  match op with
  | OpShow => show
  | OpDispose => dispose
  | OpOnPanelDisposed => onPanelDisposed
  | OpOnViewStateChanged event => forget (onViewStateChanged event)
  | OpPostMessage message invalidates => forget (postMessage message invalidates)
  | OpPostUpdatedConfiguration => forget postUpdatedConfiguration
  | OpOnMessageReceived event => onMessageReceived event
  end.

(** A sequence of [show()] calls, each run to completion; [hs] gives
    the host's state at the moment of each call (whatever the host did
    in between), the controller's fields carry over.  The result lists
    the outcome and the calls of each. *)
Fixpoint shows (hs : list H) (e : WebviewEditor)
    : list (Outcome unit * list Call) * WebviewEditor :=
  match hs with
  | [] => ([], e)
  | h :: hs' =>
      let r := show {| this := e; host := h |} in
      let '(rs, e') := shows hs' (this (world r)) in
      ((outcome r, calls r) :: rs, e')
  end.

(** A sequence of operations, the host's state carried from one to the
    next; the calls of all of them, in order. *)
Fixpoint exec_all (ops : list Op) (w : World H) : World H * list Call :=
  match ops with
  | [] => (w, [])
  | op :: ops' =>
      let r := exec op w in
      let '(w', t) := exec_all ops' (world r) in
      (w', calls r ++ t)
  end.

End Methods.

(** ** A simulated host, to run the methods on concrete inputs *)

Record SimHost : Type := {
  sim_files : list (string * string);
  sim_delivers : bool;
  sim_next : WebviewPanel;
  sim_settings : IThemeCustomSettings;
  sim_released : list Disposable
}.

Fixpoint sim_lookup (path : string) (files : list (string * string)) : option string :=
  match files with
  | [] => None
  | (p, text) :: rest => if String.eqb p path then Some text else sim_lookup path rest
  end.

Definition sim_open (path : string) (h : SimHost) : (JsError + TextDocument) * SimHost :=
  match sim_lookup path (sim_files h) with
  | Some text => (inr {| getText := text |}, h)
  | None => (inl (HostError "cannot open file"), h)
  end.

Definition sim_create (h : SimHost) : WebviewPanel * SimHost :=
  (sim_next h,
   {| sim_files := sim_files h; sim_delivers := sim_delivers h;
      sim_next := S (sim_next h); sim_settings := sim_settings h;
      sim_released := sim_released h |}).

Definition sim_release (d : Disposable) (h : SimHost) : SimHost :=
  {| sim_files := sim_files h; sim_delivers := sim_delivers h;
     sim_next := sim_next h; sim_settings := sim_settings h;
     sim_released := d :: sim_released h |}.

#[export] Instance SimHost_Host : Host SimHost := {
  host_openTextDocument := sim_open;
  host_createWebviewPanel := fun _ _ _ _ => sim_create;
  host_setHtml := fun _ _ h => h;
  host_reveal := fun _ _ h => h;
  host_postMessage := fun _ _ h => (sim_delivers h, h);
  host_subscribe := fun _ _ _ h => h;
  host_dispose := sim_release;
  host_getCustomSettings := fun h => (sim_settings h, h)
}.

(** A concrete editor: the settings page. *)
Definition settings_editor : EditorMembers :=
  {| filename := "out/ui/settings.html";
     id := "material.settings";
     title := "Material Theme Settings";
     context := {| asAbsolutePath := fun rel => String.append "/ext/" rel |} |}.

Definition sim_settings_value : IThemeCustomSettings :=
  JsObject [("accent", JsString "Teal")].

(** A host that holds the page and whose panel is visible or hidden. *)
Definition sim_host (delivers : bool) : SimHost :=
  {| sim_files := [("/ext/out/ui/settings.html", "<h1>A</h1>")];
     sim_delivers := delivers;
     sim_next := 7;
     sim_settings := sim_settings_value;
     sim_released := [] |}.

(** A host on which the page cannot be read. *)
Definition sim_host_no_file : SimHost :=
  {| sim_files := [];
     sim_delivers := true;
     sim_next := 7;
     sim_settings := sim_settings_value;
     sim_released := [] |}.

Definition sim_unit : Disposable :=
  DisposableFrom
    [DisposablePanel 7;
     DisposableListener 7 OnDidDispose HOnPanelDisposed;
     DisposableListener 7 OnDidChangeViewState HOnViewStateChanged;
     DisposableListener 7 OnDidReceiveMessage HOnMessageReceived].

(** The controller after a first [show()] created panel 7, with a given
    pending invalidation. *)
Definition shown_editor (pending : Invalidates) : WebviewEditor :=
  {| panel := Some 7; disposablePanel := Some sim_unit;
     invalidateOnVisible := pending |}.

Definition sim_world (e : WebviewEditor) (delivers : bool) : World SimHost :=
  {| this := e; host := sim_host delivers |}.

Definition sample_save : Message :=
  SaveSettingsMessage [("accent", JsString "Lime")] ["accentPrevious"]
    ScopeUser "file:///ws/settings.json".

(** ** Properties of states and traces *)

(** The path [getHtml] opens. *)
Definition page (self : EditorMembers) : string :=
  asAbsolutePath (context self) (filename self).

(** The world in which the pending invalidation has been consumed. *)
Definition cleared {H} (w : World H) : World H :=
  {| this := with_invalidateOnVisible None (this w); host := host w |}.

(** The two fields are set together: one is set exactly when the other is. *)
Definition set_together (e : WebviewEditor) : Prop :=
  disposablePanel e <> None <-> panel e <> None.

(** A stored panel comes with a stored disposal unit. *)
Definition panel_has_unit (e : WebviewEditor) : Prop :=
  panel e <> None -> disposablePanel e <> None.

(** A [show()] that stopped at the content fetch. *)
Definition fetch_only (page : string) (oc : Outcome unit * list Call) : Prop :=
  (exists e, fst oc = Threw e) /\ snd oc = [OpenTextDocument page].

(** A [show()] that replaced the HTML of panel [p] and revealed it. *)
Definition reveal_only (page : string) (p : WebviewPanel)
    (oc : Outcome unit * list Call) : Prop :=
  fst oc = Returned tt /\
  exists html, snd oc = [OpenTextDocument page; SetHtml p html; Reveal p Active].

(** All the calls of a sequence of [show()]s, in order. *)
Definition all_calls (outs : list (Outcome unit * list Call)) : list Call :=
  concat (map snd outs).

Definition resolved (oc : Outcome unit * list Call) : bool :=
  match fst oc with Returned _ => true | Threw _ => false end.

(** Whether the host, in state [h], resolves the editor's page. *)
Definition content_resolves {H} {HH : Host H} (self : EditorMembers) (h : H) : bool :=
  match fst (host_openTextDocument (page self) h) with
  | inr _ => true
  | inl _ => false
  end.

(** From a fresh controller on a host that holds the page: [show()],
    then the given operations. *)
Definition after_show (ops : list Op) (delivers : bool) : World SimHost * list Call :=
  exec_all settings_editor ops
    (world (show settings_editor (sim_world new_editor delivers))).

(** ** Runs of operations *)

(** The disposal unit [show()] builds for panel [p]: the panel and its
    three subscriptions. *)
Definition unit_of (p : WebviewPanel) : Disposable :=
  DisposableFrom
    [DisposablePanel p;
     DisposableListener p OnDidDispose HOnPanelDisposed;
     DisposableListener p OnDidChangeViewState HOnViewStateChanged;
     DisposableListener p OnDidReceiveMessage HOnMessageReceived].

Definition is_fetch (c : Call) : bool :=
  match c with OpenTextDocument _ => true | _ => false end.

Definition is_panel_disposed (op : Op) : bool :=
  match op with OpOnPanelDisposed => true | _ => false end.

(** The operations whose code assigns [invalidateOnVisible]. *)
Definition writes_pending (op : Op) : bool :=
  match op with
  | OpOnViewStateChanged _ | OpPostMessage _ _ | OpPostUpdatedConfiguration => true
  | _ => false
  end.


(** A view-state change that reports the panel visible. *)
Definition is_visible_change (op : Op) : bool :=
  match op with
  | OpOnViewStateChanged event => visible event
  | _ => false
  end.

Definition all_enabled (o : WebviewPanelOptions) : bool :=
  retainContextWhenHidden o && enableFindWidget o && enableCommandUris o && enableScripts o.

(** A run of operations, each on the host as it is at that moment (the
    host may have changed in between); the controller's fields carry
    over.  The result is the final fields and all the calls, in order. *)
Fixpoint run_ops {H} {HH : Host H} (self : EditorMembers) (ops : list (Op * H))
    (e : WebviewEditor) : WebviewEditor * list Call :=
  match ops with
  | [] => (e, [])
  | (op, h) :: rest =>
      let r := exec self op {| this := e; host := h |} in
      let '(e', t) := run_ops self rest (this (world r)) in
      (e', calls r ++ t)
  end.

Definition disposals {H} (ops : list (Op * H)) : nat :=
  length (filter (fun oh => is_panel_disposed (fst oh)) ops).

(** ** Releasing the unit, with the dispose listener

    The unit [show()] stores holds the panel and the subscription of
    [onPanelDisposed] to the panel's dispose event (lines 149-154), so
    releasing it disposes of the panel, and a host that fires that event
    at once runs [onPanelDisposed] before the release returns.  Whether
    it does is the host's business: [fires] is the number of times in a
    row the host fires the event during the releases that follow. *)

(** [dispose()], lines 48-52, over a given way of releasing. *)
Definition dispose_with {H} (rel : Disposable -> M H unit) : M H unit :=
  e <- get_this ;;
  match disposablePanel e with
  | Some d => rel d
  | None => ret tt
  end.

(** [onPanelDisposed()], lines 82-88, over a given way of releasing. *)
Definition onPanelDisposed_with {H} (rel : Disposable -> M H unit) : M H unit :=
  e <- get_this ;;
  (match disposablePanel e with
   | Some d => rel d
   | None => ret tt
   end) ;;
  update_this (with_panel None).

(** [d.dispose()] on a host that fires the dispose event [fires] times:
    the call, then the listener, whose own release is on the same host. *)
Fixpoint release {H} {HH : Host H} (fires : nat) (d : Disposable) : M H unit :=
  match fires with
  | 0 => disposable_dispose d
  | S k => disposable_dispose d ;; onPanelDisposed_with (release k)
  end.

Definition dispose_firing {H} {HH : Host H} (fires : nat) : M H unit :=
  dispose_with (release fires).

Definition onPanelDisposed_firing {H} {HH : Host H} (fires : nat) : M H unit :=
  onPanelDisposed_with (release fires).

(** The host's state after [n] releases of [d]. *)
Fixpoint released {H} {HH : Host H} (n : nat) (d : Disposable) (h : H) : H :=
  match n with
  | 0 => h
  | S k => released k d (host_dispose d h)
  end.

(** What holds of the lifecycle fields [e] after calls [t], of which [n]
    operations were dispose callbacks: a stored panel has its own unit
    stored; a unit stored without a panel has been released; a panel
    was created at most once more than the host disposed of one. *)
Definition well_kept (e : WebviewEditor) (t : list Call) (n : nat) : Prop :=
  (forall p, panel e = Some p -> disposablePanel e = Some (unit_of p)) /\
  (panel e = None -> forall d, disposablePanel e = Some d -> In (DisposeOf d) t) /\
  count is_create t + match panel e with Some _ => 0 | None => 1 end <= 1 + n.

(** ** Basic facts *)

Ltac run_method :=
  unfold exec, forget, onViewStateChanged, postUpdatedConfiguration, postMessage,
    onPanelDisposed, dispose, show, getHtml, onMessageReceived, openTextDocument,
    createWebviewPanel, set_html, reveal, webview_postMessage, subscribe,
    disposable_dispose, getCustomSettings, console_log, settle, tell, ask,
    update_this, get_this, bind, ret, throw in *;
  cbn in *.

(** Case analysis on whatever the run inspects next: an answer of the
    host, a field, a flag. *)
Ltac next_case :=
  match goal with
  | |- context [match ?x with pair _ _ => _ end] => destruct x eqn:?
  | |- context [match ?x with inl _ => _ | inr _ => _ end] => destruct x eqn:?
  | |- context [match ?x with Some _ => _ | None => _ end] => destruct x eqn:?
  | |- context [match ?x with InvAll => _ | InvConfig => _ end] => destruct x eqn:?
  | |- context [match ?x with InNull => _ | InUndefined => _ | InMessage _ => _ end] =>
      destruct x eqn:?
  | |- context [if ?x then _ else _] => destruct x eqn:?
  end; cbn in *.

Example first_show_creates :
  let r := show settings_editor (sim_world new_editor true) in
  this (world r) = shown_editor None /\
  outcome r = Returned tt /\
  calls r =
    [OpenTextDocument "/ext/out/ui/settings.html";
     CreateWebviewPanel "material.settings" "Material Theme Settings" Active panel_options;
     Subscribe 7 OnDidDispose HOnPanelDisposed;
     Subscribe 7 OnDidChangeViewState HOnViewStateChanged;
     Subscribe 7 OnDidReceiveMessage HOnMessageReceived;
     SetHtml 7 "<h1>A</h1>"].
Proof. repeat split. Qed.

(** The design's last scenario: [show()], a configuration push that the
    hidden panel does not confirm, then the panel becomes visible. *)
Example hidden_push_then_visible :
  let w1 := world (show settings_editor (sim_world new_editor false)) in
  let r2 := postUpdatedConfiguration w1 in
  let w3 := {| this := this (world r2); host := sim_host true |} in
  let r4 := onViewStateChanged settings_editor {| webviewPanel := 7; visible := true |} w3 in
  outcome r2 = Returned false /\
  invalidateOnVisible (this (world r2)) = Some InvConfig /\
  calls r4 =
    [ConsoleLog (LogViewStateChanged true);
     GetCustomSettings;
     PostMessage 7 (SettingsChangedMessage sim_settings_value)] /\
  invalidateOnVisible (this (world r4)) = None.
Proof. repeat split. Qed.

(** A hidden event, or nothing pending: one console line and nothing
    else. *)
Example hidden_event_is_ignored :
  let w := sim_world (shown_editor (Some InvAll)) true in
  let r := onViewStateChanged settings_editor {| webviewPanel := 7; visible := false |} w in
  outcome r = Returned RetUndefined /\
  calls r = [ConsoleLog (LogViewStateChanged false)] /\
  world r = w.
Proof. repeat split. Qed.

(** Reading the tag of [undefined] throws. *)
Example undefined_event_throws :
  outcome (onMessageReceived InUndefined (sim_world new_editor true)) =
    Threw TypeError.
Proof. reflexivity. Qed.

Section PostMessage.

Context {H : Type} {HH : Host H}.

(** C8: with no panel, [postMessage] returns [false], makes no call
    at all, and leaves the controller's fields and the host as they
    were. *)
Theorem postMessage_without_panel :
  forall (message : Message) (invalidates : Invalidates) (w : World H),
    panel (this w) = None ->
    let r := postMessage message invalidates w in
    outcome r = Returned false /\ calls r = [] /\ world r = w.
Proof.
  intros message invalidates w Hp. run_method. rewrite Hp. cbn. auto.
Qed.

(** What [postMessage] leaves pending, given the host's answer. *)
Lemma postMessage_pending :
  forall (message : Message) (invalidates : Invalidates) (w : World H)
         (p : WebviewPanel) (delivered : bool) (h' : H),
    panel (this w) = Some p ->
    host_postMessage p message (host w) = (delivered, h') ->
    let r := postMessage message invalidates w in
    outcome r = Returned delivered /\
    calls r = [PostMessage p message] /\
    host (world r) = h' /\
    panel (this (world r)) = panel (this w) /\
    disposablePanel (this (world r)) = disposablePanel (this w) /\
    invalidateOnVisible (this (world r)) =
      (if negb delivered && negb (is_all (invalidateOnVisible (this w)))
       then default_invalidates invalidates
       else invalidateOnVisible (this w)).
Proof.
  intros message invalidates w p delivered h' Hp Hd. run_method.
  rewrite Hp. cbn. rewrite Hd. cbn.
  destruct (negb delivered && negb (is_all (invalidateOnVisible (this w)))); cbn; auto 10.
Qed.

(** C1: while a panel exists, a [postMessage(message, c)] whose
    delivery the host does not confirm records [c] as the pending
    invalidation unless ['all'] is already pending, and a pending
    ['all'] stays ['all']. *)
Theorem postMessage_records_unless_all :
  forall (message : Message) (c : InvalidationClass) (w : World H)
         (p : WebviewPanel) (h' : H),
    panel (this w) = Some p ->
    host_postMessage p message (host w) = (false, h') ->
    let r := postMessage message (Some c) w in
    (invalidateOnVisible (this w) <> Some InvAll ->
     invalidateOnVisible (this (world r)) = Some c) /\
    (invalidateOnVisible (this w) = Some InvAll ->
     invalidateOnVisible (this (world r)) = Some InvAll).
Proof.
  intros message c w p h' Hp Hd r.
  destruct (postMessage_pending message (Some c) w Hp Hd)
    as (_ & _ & _ & _ & _ & Hi).
  fold r in Hi. rewrite Hi. cbn.
  split; intros Hall.
  - destruct (invalidateOnVisible (this w)) as [[|]|]; cbn; congruence.
  - rewrite Hall. reflexivity.
Qed.

End PostMessage.

Lemma postMessage_without_panel_witness :
  let r := postMessage sample_save (Some InvConfig) (sim_world new_editor false) in
  outcome r = Returned false /\ calls r = [] /\ world r = sim_world new_editor false.
Proof.
  apply (postMessage_without_panel sample_save (Some InvConfig) (sim_world new_editor false)).
  reflexivity.
Defined.

Lemma postMessage_records_unless_all_witness :
  (invalidateOnVisible
     (this (world (postMessage (SettingsChangedMessage sim_settings_value)
                     (Some InvConfig) (sim_world (shown_editor None) false))))
   = Some InvConfig) /\
  (invalidateOnVisible
     (this (world (postMessage (SettingsChangedMessage sim_settings_value)
                     (Some InvConfig) (sim_world (shown_editor (Some InvAll)) false))))
   = Some InvAll).
Proof.
  split.
  - apply (postMessage_records_unless_all (SettingsChangedMessage sim_settings_value)
             InvConfig (sim_world (shown_editor None) false)
             (p := 7) (h' := sim_host false)).
    + reflexivity.
    + reflexivity.
    + cbn. discriminate.
  - apply (postMessage_records_unless_all (SettingsChangedMessage sim_settings_value)
             InvConfig (sim_world (shown_editor (Some InvAll)) false)
             (p := 7) (h' := sim_host false)).
    + reflexivity.
    + reflexivity.
    + reflexivity.
Defined.

Section Show.

Context {H : Type} {HH : Host H}.
Variable self : EditorMembers.

(** [show()] when the content cannot be resolved: the rejection is
    the host's, the only call is the fetch, no field is written. *)
Lemma show_rejected :
  forall (w : World H) (e : JsError) (h1 : H),
    host_openTextDocument (page self) (host w) = (inl e, h1) ->
    let r := show self w in
    outcome r = Threw e /\
    calls r = [OpenTextDocument (page self)] /\
    this (world r) = this w /\
    host (world r) = h1.
Proof.
  intros w e h1 Ho. unfold page in *. run_method. rewrite Ho. cbn. auto.
Qed.

(** [show()] when a panel exists and the content resolves: the HTML is
    replaced and the panel revealed; no field is written. *)
Lemma show_reveals :
  forall (w : World H) (p : WebviewPanel) (doc : TextDocument) (h1 : H),
    panel (this w) = Some p ->
    host_openTextDocument (page self) (host w) = (inr doc, h1) ->
    let r := show self w in
    outcome r = Returned tt /\
    calls r = [OpenTextDocument (page self); SetHtml p (getText doc); Reveal p Active] /\
    this (world r) = this w /\
    host (world r) = host_reveal p Active (host_setHtml p (getText doc) h1).
Proof.
  intros w p doc h1 Hp Ho. unfold page in *. run_method. rewrite Ho. cbn.
  rewrite Hp. cbn. auto.
Qed.

(** [show()] when no panel exists and the content resolves: one panel
    is created, the three listeners are registered, both fields are
    set, the HTML is loaded. *)
Lemma show_creates :
  forall (w : World H) (doc : TextDocument) (h1 : H),
    panel (this w) = None ->
    host_openTextDocument (page self) (host w) = (inr doc, h1) ->
    let r := show self w in
    let p := fst (host_createWebviewPanel (id self) (title self) Active panel_options h1) in
    outcome r = Returned tt /\
    calls r =
      [OpenTextDocument (page self);
       CreateWebviewPanel (id self) (title self) Active panel_options;
       Subscribe p OnDidDispose HOnPanelDisposed;
       Subscribe p OnDidChangeViewState HOnViewStateChanged;
       Subscribe p OnDidReceiveMessage HOnMessageReceived;
       SetHtml p (getText doc)] /\
    panel (this (world r)) = Some p /\
    disposablePanel (this (world r)) =
      Some (DisposableFrom
              [DisposablePanel p;
               DisposableListener p OnDidDispose HOnPanelDisposed;
               DisposableListener p OnDidChangeViewState HOnViewStateChanged;
               DisposableListener p OnDidReceiveMessage HOnMessageReceived]) /\
    invalidateOnVisible (this (world r)) = invalidateOnVisible (this w).
Proof.
  intros w doc h1 Hp Ho. unfold page in *. run_method. rewrite Ho. cbn.
  rewrite Hp. cbn.
  destruct (host_createWebviewPanel (id self) (title self) Active panel_options h1)
    as [p h2]. cbn. auto 10.
Qed.

End Show.

Section ViewState.

Context {H : Type} {HH : Host H}.
Variable self : EditorMembers.

(** A visible event with something pending: the log line, then the
    branch chosen by the snapshot, run on the cleared world. *)
Lemma onViewStateChanged_dispatch :
  forall (event : WebviewPanelOnDidChangeViewStateEvent) (w : World H)
         (c : InvalidationClass),
    visible event = true ->
    invalidateOnVisible (this w) = Some c ->
    let r := onViewStateChanged self event w in
    match c with
    | InvConfig =>
        let s := postUpdatedConfiguration (cleared w) in
        calls r = ConsoleLog (LogViewStateChanged true) :: calls s /\
        world r = world s /\
        (forall b, outcome s = Returned b -> outcome r = Returned (RetPosted b))
    | InvAll =>
        let s := show self (cleared w) in
        calls r = ConsoleLog (LogViewStateChanged true) :: calls s /\
        world r = world s /\
        outcome r = Returned (RetShown (outcome s))
    end.
Proof.
  intros event [e h] c Hv Hi. cbn in Hi. unfold cleared.
  unfold onViewStateChanged, console_log, tell, ask, get_this, update_this,
    settle, bind, ret.
  cbn -[show postUpdatedConfiguration].
  rewrite Hi, Hv. cbn -[show postUpdatedConfiguration].
  destruct c.
  - destruct (show self _) as [o w1 c1]. cbn. rewrite app_nil_r. auto.
  - destruct (postUpdatedConfiguration _) as [[b|err] w1 c1]; cbn.
    + rewrite app_nil_r. repeat split. intros b' Hb. congruence.
    + repeat split. intros b' Hb. discriminate.
Qed.


(** C2: on a view-state change that reports the panel visible, a
    pending ['config'] is cleared and then exactly one
    [settingsChanged] message, holding the settings read at that moment,
    is posted to the panel; a pending ['all'] is cleared and then
    [show()] runs: the content is fetched again and, when it resolves,
    written to the panel, which is revealed. *)
Theorem onViewStateChanged_visible :
  forall (event : WebviewPanelOnDidChangeViewStateEvent) (w : World H)
         (p : WebviewPanel) (c : InvalidationClass),
    visible event = true ->
    panel (this w) = Some p ->
    invalidateOnVisible (this w) = Some c ->
    let r := onViewStateChanged self event w in
    invalidateOnVisible (this (cleared w)) = None /\
    match c with
    | InvConfig =>
        let config := fst (host_getCustomSettings (host w)) in
        let h1 := snd (host_getCustomSettings (host w)) in
        let delivered := fst (host_postMessage p (SettingsChangedMessage config) h1) in
        world r = world (postUpdatedConfiguration (cleared w)) /\
        calls r =
          [ConsoleLog (LogViewStateChanged true);
           GetCustomSettings;
           PostMessage p (SettingsChangedMessage config)] /\
        count is_post (calls r) = 1 /\
        outcome r = Returned (RetPosted delivered) /\
        invalidateOnVisible (this (world r)) =
          (if delivered then None else Some InvConfig)
    | InvAll =>
        let s := show self (cleared w) in
        let page := asAbsolutePath (context self) (filename self) in
        world r = world s /\
        calls r = ConsoleLog (LogViewStateChanged true) :: calls s /\
        outcome r = Returned (RetShown (outcome s)) /\
        invalidateOnVisible (this (world r)) = None /\
        match fst (host_openTextDocument page (host w)) with
        | inr doc =>
            outcome s = Returned tt /\
            calls s = [OpenTextDocument page; SetHtml p (getText doc); Reveal p Active]
        | inl e =>
            outcome s = Threw e /\
            calls s = [OpenTextDocument page]
        end
    end.
Proof.
  intros event w p c Hv Hp Hi.
  pose proof (onViewStateChanged_dispatch event w Hv Hi) as Hd.
  cbv zeta in Hd |- *.
  split; [reflexivity|].
  set (r := onViewStateChanged self event w) in *. clearbody r.
  destruct c.
  - destruct Hd as (Hc & Hw & Ho).
    assert (Hp' : panel (this (cleared w)) = Some p) by exact Hp.
    assert (Hh : host (cleared w) = host w) by reflexivity.
    destruct (host_openTextDocument
                (asAbsolutePath (context self) (filename self)) (host w))
      as [[e|doc] h1] eqn:Hopen; cbn [fst snd].
    + destruct (show_rejected self (cleared w) Hopen) as (So & Sc & St & Sh).
      set (s := show self (cleared w)) in *. clearbody s.
      rewrite Hw, Hc, Ho, St, Sc, So. repeat split.
    + destruct (show_reveals self (cleared w) Hp' Hopen) as (So & Sc & St & Sh).
      set (s := show self (cleared w)) in *. clearbody s.
      rewrite Hw, Hc, Ho, St, Sc, So. repeat split.
  - destruct Hd as (Hc & Hw & Ho).
    destruct (host_getCustomSettings (host w)) as [config h1] eqn:Hg.
    cbn [fst snd].
    destruct (host_postMessage p (SettingsChangedMessage config) h1)
      as [delivered h2] eqn:Hpost.
    cbn [fst snd].
    assert (Hs : outcome (postUpdatedConfiguration (cleared w)) = Returned delivered /\
                 calls (postUpdatedConfiguration (cleared w)) =
                   [GetCustomSettings; PostMessage p (SettingsChangedMessage config)] /\
                 invalidateOnVisible (this (world (postUpdatedConfiguration (cleared w)))) =
                   (if delivered then None else Some InvConfig)).
    { pose proof (postMessage_pending (SettingsChangedMessage config) (Some InvConfig)
                    {| this := with_invalidateOnVisible None (this w); host := h1 |}
                    (p := p) (delivered := delivered) (h' := h2) Hp Hpost) as Hpm.
      cbv zeta in Hpm. destruct Hpm as (Po & Pc & _ & _ & _ & Pi).
      unfold postUpdatedConfiguration, getCustomSettings, ask, bind, cleared.
      cbn -[postMessage]. rewrite Hg.
      destruct (postMessage _ _ _) as [o w1 c1]. cbn in *.
      subst o c1. rewrite Pi. destruct delivered; auto. }
    destruct Hs as (So & Sc & Si).
    set (s := postUpdatedConfiguration (cleared w)) in *. clearbody s.
    rewrite Hw, Hc, Sc, Si, (Ho _ So). repeat split.
Qed.


End ViewState.

Lemma onViewStateChanged_visible_witness :
  let event := {| webviewPanel := 7; visible := true |} in
  let r := onViewStateChanged settings_editor event
             (sim_world (shown_editor (Some InvConfig)) true) in
  calls r =
    [ConsoleLog (LogViewStateChanged true);
     GetCustomSettings;
     PostMessage 7 (SettingsChangedMessage sim_settings_value)] /\
  invalidateOnVisible (this (world r)) = None.
Proof.
  intros event r.
  destruct (onViewStateChanged_visible settings_editor event
              (sim_world (shown_editor (Some InvConfig)) true)
              (p := 7) (c := InvConfig) eq_refl eq_refl eq_refl)
    as (_ & _ & Hc & _ & _ & Hi).
  split; [exact Hc | exact Hi].
Defined.

Section ShowFailure.

Context {H : Type} {HH : Host H}.
Variable self : EditorMembers.

(** C7: when the content cannot be resolved, [show()] rejects with the
    host's error, writes none of the three fields, and asks for no
    panel: the only call is the fetch. *)
Theorem show_failure_changes_nothing :
  forall (w : World H) (e : JsError) (h1 : H),
    host_openTextDocument (asAbsolutePath (context self) (filename self)) (host w)
      = (inl e, h1) ->
    let r := show self w in
    outcome r = Threw e /\
    this (world r) = this w /\
    panel (this (world r)) = panel (this w) /\
    disposablePanel (this (world r)) = disposablePanel (this w) /\
    invalidateOnVisible (this (world r)) = invalidateOnVisible (this w) /\
    count is_create (calls r) = 0 /\
    calls r = [OpenTextDocument (asAbsolutePath (context self) (filename self))].
Proof.
  intros w e h1 Ho r.
  destruct (show_rejected self w Ho) as (Hr & Hc & Ht & _).
  fold r in Hr, Hc, Ht. rewrite Hr, Hc, Ht. auto 10.
Qed.

End ShowFailure.

Lemma show_failure_changes_nothing_witness :
  let w := {| this := shown_editor (Some InvConfig); host := sim_host_no_file |} in
  let r := show settings_editor w in
  outcome r = Threw (HostError "cannot open file") /\
  this (world r) = shown_editor (Some InvConfig) /\
  count is_create (calls r) = 0.
Proof.
  intros w r.
  assert (Ho : host_openTextDocument
                 (asAbsolutePath (context settings_editor) (filename settings_editor))
                 (host w)
               = (inl (HostError "cannot open file"), sim_host_no_file))
    by reflexivity.
  destruct (show_failure_changes_nothing settings_editor w Ho)
    as (Hr & Ht & _ & _ & _ & Hc & _).
  auto.
Defined.


Section Inbound.

Context {H : Type} {HH : Host H}.

(** C9: an inbound event that is [null], or a message whose tag is not
    ['saveSettings'], makes [onMessageReceived] return without an
    error, with no call to a collaborator, no message posted, and the
    controller and the host as they were. *)
Theorem onMessageReceived_ignores :
  forall (event : Inbound) (w : World H),
    (event = InNull \/
     exists m, event = InMessage m /\ message_type m <> "saveSettings") ->
    let r := onMessageReceived event w in
    outcome r = Returned tt /\
    filter is_delegated (calls r) = [] /\
    count is_post (calls r) = 0 /\
    world r = w.
Proof.
  intros event w [-> | (m & -> & Hm)]; cbn.
  - auto.
  - run_method. destruct w as [e h].
    destruct (String.eqb (message_type m) "saveSettings"); cbn; auto.
Qed.

(** C3: what the code does with a ['saveSettings'] message: it logs
    the message and returns; the tuple is forwarded nowhere. *)
Theorem onMessageReceived_saveSettings :
  forall (changes : list (string * JsValue)) (removes : list string)
         (scope : Scope) (uri : string) (w : World H),
    let m := SaveSettingsMessage changes removes scope uri in
    let r := onMessageReceived (InMessage m) w in
    outcome r = Returned tt /\
    calls r = [ConsoleLog (LogMessageReceived m)] /\
    ~ In (ApplySettings changes removes scope uri) (calls r) /\
    world r = w.
Proof.
  intros changes removes scope uri w m r. subst r m. run_method.
  destruct w as [e h]. cbn. repeat split; auto.
  intros [Hc | []]. discriminate.
Qed.

End Inbound.

Lemma onMessageReceived_ignores_witness :
  let w := sim_world (shown_editor None) true in
  (world (onMessageReceived InNull w) = w /\ calls (onMessageReceived InNull w) = []) /\
  (let r := onMessageReceived (InMessage (OtherMessage "unknown" [])) w in
   outcome r = Returned tt /\ filter is_delegated (calls r) = [] /\ world r = w).
Proof.
  intros w. split.
  - destruct (@onMessageReceived_ignores SimHost InNull w (or_introl eq_refl))
      as (_ & _ & _ & Hw).
    split; [exact Hw | reflexivity].
  - assert (Hm : message_type (OtherMessage "unknown" []) <> "saveSettings")
      by (cbn; discriminate).
    destruct (@onMessageReceived_ignores SimHost
                (InMessage (OtherMessage "unknown" [])) w
                (or_intror (ex_intro _ _ (conj eq_refl Hm))))
      as (Ho & Hf & _ & Hw).
    auto.
Defined.


Section Lifecycle.

Context {H : Type} {HH : Host H}.
Variable self : EditorMembers.

(** No operation but [onPanelDisposed] clears or replaces a stored panel. *)
Lemma exec_keeps_panel :
  forall (op : Op) (w : World H) (p : WebviewPanel),
    panel (this w) = Some p ->
    op <> OpOnPanelDisposed ->
    panel (this (world (exec self op w))) = Some p.
Proof.
  intros op w p Hp Hop. destruct w as [e h]. cbn in Hp.
  destruct op; try congruence; run_method; try rewrite Hp; cbn;
    repeat next_case; try rewrite Hp; cbn; try congruence.
Qed.

(** [dispose()] and [onPanelDisposed()]: what is released and what is
    written. *)
Lemma dispose_effect :
  forall (w : World H),
    outcome (dispose w) = Returned tt /\
    this (world (dispose w)) = this w /\
    match disposablePanel (this w) with
    | Some d =>
        calls (dispose w) = [DisposeOf d] /\
        host (world (dispose w)) = host_dispose d (host w)
    | None => calls (dispose w) = [] /\ host (world (dispose w)) = host w
    end.
Proof.
  intros [e h]. run_method. destruct (disposablePanel e); cbn; auto.
Qed.

Lemma onPanelDisposed_effect :
  forall (w : World H),
    outcome (onPanelDisposed w) = Returned tt /\
    this (world (onPanelDisposed w)) = with_panel None (this w) /\
    match disposablePanel (this w) with
    | Some d =>
        calls (onPanelDisposed w) = [DisposeOf d] /\
        host (world (onPanelDisposed w)) = host_dispose d (host w)
    | None =>
        calls (onPanelDisposed w) = [] /\ host (world (onPanelDisposed w)) = host w
    end.
Proof.
  intros [e h]. run_method. destruct (disposablePanel e); cbn; auto.
Qed.

(** The implication from panel to disposal unit is kept by every
    operation. *)
Lemma exec_keeps_panel_has_unit :
  forall (op : Op) (w : World H),
    panel_has_unit (this w) ->
    panel_has_unit (this (world (exec self op w))).
Proof.
  unfold panel_has_unit. intros op [e h] Hi. cbn in Hi.
  destruct op; run_method; repeat next_case; cbn; auto;
    solve [intuition congruence].
Qed.



Lemma exec_all_keeps_panel_has_unit :
  forall (ops : list Op) (w : World H),
    panel_has_unit (this w) ->
    panel_has_unit (this (fst (exec_all self ops w))).
Proof.
  induction ops as [|op ops IH]; intros w Hi; cbn.
  - exact Hi.
  - specialize (IH (world (exec self op w)) (exec_keeps_panel_has_unit op w Hi)).
    destruct (exec_all self ops (world (exec self op w))) as [w' t]. exact IH.
Qed.

(** C5: a stored panel always comes with a stored disposal unit: this
    holds of a fresh controller, is kept by every operation, and so
    holds after any run of operations. *)
Theorem panel_has_unit_invariant :
  panel_has_unit new_editor /\
  (forall (op : Op) (w : World H),
     panel_has_unit (this w) -> panel_has_unit (this (world (exec self op w)))) /\
  (forall (ops : list Op) (h : H),
     panel_has_unit (this (fst (exec_all self ops {| this := new_editor; host := h |})))).
Proof.
  assert (Hn : panel_has_unit new_editor) by (intros Hp; cbn in Hp; congruence).
  split; [exact Hn|]. split.
  - exact exec_keeps_panel_has_unit.
  - intros ops h. apply exec_all_keeps_panel_has_unit. exact Hn.
Qed.

End Lifecycle.

Lemma count_app :
  forall (f : Call -> bool) (a b : list Call),
    count f (a ++ b) = count f a + count f b.
Proof.
  intros f a b. unfold count. rewrite filter_app, length_app. reflexivity.
Qed.

Section ShowSequence.

Context {H : Type} {HH : Host H}.
Variable self : EditorMembers.

Lemma shows_cons :
  forall (h : H) (hs : list H) (e : WebviewEditor),
    fst (shows self (h :: hs) e) =
      (outcome (show self {| this := e; host := h |}),
       calls (show self {| this := e; host := h |}))
      :: fst (shows self hs (this (world (show self {| this := e; host := h |})))) /\
    snd (shows self (h :: hs) e) =
      snd (shows self hs (this (world (show self {| this := e; host := h |})))).
Proof.
  intros h hs e. cbn [shows].
  destruct (shows self hs (this (world (show self {| this := e; host := h |}))))
    as [rs e']. split; reflexivity.
Qed.

Lemma all_calls_cons :
  forall (f : Call -> bool) (oc : Outcome unit * list Call)
         (outs : list (Outcome unit * list Call)),
    count f (all_calls (oc :: outs)) = count f (snd oc) + count f (all_calls outs).
Proof.
  intros f oc outs. unfold all_calls. cbn [map concat]. apply count_app.
Qed.

(** One [show()]: it stops at the fetch, or reveals the stored panel,
    or creates one. *)
Lemma show_cases :
  forall (w : World H),
    (this (world (show self w)) = this w /\
     fetch_only (page self) (outcome (show self w), calls (show self w)) /\
     count is_create (calls (show self w)) = 0) \/
    (exists p, panel (this w) = Some p /\
       this (world (show self w)) = this w /\
       reveal_only (page self) p (outcome (show self w), calls (show self w)) /\
       count is_create (calls (show self w)) = 0) \/
    (exists p, panel (this w) = None /\
       panel (this (world (show self w))) = Some p /\
       outcome (show self w) = Returned tt /\
       count is_create (calls (show self w)) = 1).
Proof.
  intros w.
  destruct (host_openTextDocument (page self) (host w)) as [[err|doc] h1] eqn:Ho.
  - left. destruct (show_rejected self w Ho) as (So & Sc & St & _).
    rewrite So, Sc, St. repeat split. exists err. reflexivity.
  - destruct (panel (this w)) as [p|] eqn:Hp.
    + right. left. exists p.
      destruct (show_reveals self w Hp Ho) as (So & Sc & St & _).
      rewrite So, Sc, St. repeat split. exists (getText doc). reflexivity.
    + right. right.
      destruct (show_creates self w Hp Ho) as (So & Sc & Sp & _).
      eexists. rewrite So, Sc, Sp. repeat split.
Qed.

(** [show()] returns exactly when the content resolves. *)
Lemma show_resolved :
  forall (w : World H),
    resolved (outcome (show self w), calls (show self w)) =
      content_resolves self (host w).
Proof.
  intros w. unfold resolved, content_resolves. cbn [fst].
  destruct (host_openTextDocument (page self) (host w)) as [[err|doc] h1] eqn:Ho;
    cbn [fst].
  - destruct (show_rejected self w Ho) as (So & _). rewrite So. reflexivity.
  - destruct (panel (this w)) as [p|] eqn:Hp.
    + destruct (show_reveals self w Hp Ho) as (So & _). rewrite So. reflexivity.
    + destruct (show_creates self w Hp Ho) as (So & _). rewrite So. reflexivity.
Qed.

Lemma shows_resolved :
  forall (hs : list H) (e : WebviewEditor),
    map resolved (fst (shows self hs e)) = map (content_resolves self) hs.
Proof.
  induction hs as [|h hs IH]; intros e.
  - reflexivity.
  - destruct (shows_cons h hs e) as (Hf & _). rewrite Hf. cbn [map].
    rewrite show_resolved, IH. reflexivity.
Qed.

Lemma shows_any_resolved :
  forall (hs : list H) (e : WebviewEditor),
    existsb resolved (fst (shows self hs e)) = existsb (content_resolves self) hs.
Proof.
  induction hs as [|h hs IH]; intros e.
  - reflexivity.
  - destruct (shows_cons h hs e) as (Hf & _). rewrite Hf. cbn [existsb].
    rewrite show_resolved, IH. reflexivity.
Qed.

(** Once a panel is stored, a run of [show()]s writes no field and
    every one of them either stops at the fetch or reveals that panel. *)
Lemma shows_with_panel :
  forall (hs : list H) (e : WebviewEditor) (p : WebviewPanel),
    panel e = Some p ->
    snd (shows self hs e) = e /\
    Forall (fun oc => fetch_only (page self) oc \/ reveal_only (page self) p oc)
           (fst (shows self hs e)) /\
    count is_create (all_calls (fst (shows self hs e))) = 0.
Proof.
  induction hs as [|h hs IH]; intros e p Hp.
  - cbn. repeat split. constructor.
  - destruct (shows_cons h hs e) as (Hf & Hs). rewrite Hf, Hs.
    rewrite all_calls_cons. cbn [snd].
    set (w := {| this := e; host := h |}) in *.
    destruct (show_cases w) as [(Ht & Hk & Hc) | [(q & Hq & Ht & Hk & Hc) | (q & Hq & _)]].
    + rewrite Ht. cbn [this w]. destruct (IH e p Hp) as (IHe & IHf & IHc).
      rewrite Hc, IHc. repeat split; auto.
    + assert (q = p) by (cbn in Hq; congruence). subst q.
      rewrite Ht. cbn [this w]. destruct (IH e p Hp) as (IHe & IHf & IHc).
      rewrite Hc, IHc. repeat split; auto.
    + cbn in Hq. congruence.
Qed.

(** From a controller without a panel: the run creates a panel at the
    first [show()] whose content resolves, and nowhere else. *)
Lemma shows_without_panel :
  forall (hs : list H) (e : WebviewEditor),
    panel e = None ->
    count is_create (all_calls (fst (shows self hs e))) =
      (if existsb resolved (fst (shows self hs e)) then 1 else 0) /\
    (forall i j ci oc,
       i < j ->
       nth_error (fst (shows self hs e)) i = Some (Returned tt, ci) ->
       nth_error (fst (shows self hs e)) j = Some oc ->
       exists p, panel (snd (shows self hs e)) = Some p /\
                 (fetch_only (page self) oc \/ reveal_only (page self) p oc)).
Proof.
  induction hs as [|h hs IH]; intros e Hp.
  - cbn. split; [reflexivity|]. intros i j ci oc _ Hi. destruct i; discriminate.
  - destruct (shows_cons h hs e) as (Hf & Hs). rewrite Hf, Hs.
    rewrite all_calls_cons. cbn [snd existsb].
    set (w := {| this := e; host := h |}) in *.
    destruct (show_cases w) as [(Ht & Hk & Hc) | [(q & Hq & _) | (q & _ & Hq & Ho & Hc)]].
    + destruct Hk as ((err & Hk) & _). cbn [fst] in Hk.
      rewrite Ht. cbn [this w]. destruct (IH e Hp) as (IHc & IHs).
      unfold resolved at 1. cbn [fst]. rewrite Hk, Hc. cbn [orb Nat.add].
      split; [exact IHc|].
      intros i j ci oc Hlt Hi Hj.
      destruct i as [|i]; [cbn in Hi; congruence|].
      destruct j as [|j]; [lia|]. cbn [nth_error] in Hi, Hj.
      apply (IHs i j ci oc); auto. lia.
    + cbn in Hq. congruence.
    + destruct (shows_with_panel hs (this (world (show self w))) Hq)
        as (He & Hall & Hz).
      unfold resolved at 1. cbn [fst]. rewrite Ho, Hc, Hz, He. cbn [orb].
      split; [reflexivity|].
      intros i j ci oc Hlt Hi Hj.
      destruct j as [|j]; [lia|]. cbn [nth_error] in Hj.
      exists q. split; [exact Hq|].
      rewrite Forall_forall in Hall. apply Hall.
      eapply nth_error_In; eauto.
Qed.

(** C4: in a run of [show()] calls on a fresh controller at most one
    panel is asked of the host, exactly one as soon as the content
    resolves for one of the calls; every call after the first
    completed one either stops at a failed fetch or replaces the HTML
    of the stored panel and reveals it. *)
Theorem shows_create_one_panel :
  forall (hs : list H),
    let outs := fst (shows self hs new_editor) in
    count is_create (all_calls outs) <= 1 /\
    map resolved outs = map (content_resolves self) hs /\
    (existsb (content_resolves self) hs = true ->
     count is_create (all_calls outs) = 1) /\
    (forall i j ci oc,
       i < j ->
       nth_error outs i = Some (Returned tt, ci) ->
       nth_error outs j = Some oc ->
       exists p, panel (snd (shows self hs new_editor)) = Some p /\
                 (fetch_only (asAbsolutePath (context self) (filename self)) oc \/
                  reveal_only (asAbsolutePath (context self) (filename self)) p oc)).
Proof.
  intros hs. cbv zeta.
  destruct (shows_without_panel hs new_editor eq_refl) as (Hc & Hs).
  pose proof (shows_resolved hs new_editor) as Hm.
  pose proof (shows_any_resolved hs new_editor) as He.
  split; [|split; [exact Hm|split]].
  - rewrite Hc. destruct (existsb resolved _); lia.
  - intros Hr. rewrite Hc, He, Hr. reflexivity.
  - exact Hs.
Qed.

End ShowSequence.

(** ** Concrete runs *)

Lemma panel_has_unit_invariant_witness :
  panel_has_unit (shown_editor None) /\
  panel_has_unit
    (this (world (exec settings_editor OpOnPanelDisposed
                    (sim_world (shown_editor None) true)))).
Proof.
  assert (Hi : panel_has_unit (shown_editor None)) by (intros _; discriminate).
  split; [exact Hi|].
  apply (proj1 (proj2 (panel_has_unit_invariant (H := SimHost) settings_editor))
           OpOnPanelDisposed (sim_world (shown_editor None) true)).
  exact Hi.
Defined.

(** After [show()] and the host's dispose callback the disposal unit is
    still stored while the panel is not. *)
Lemma set_together_broken_by_onPanelDisposed :
  set_together new_editor /\
  this (fst (after_show [] true)) = shown_editor None /\
  set_together (this (fst (after_show [] true))) /\
  this (fst (after_show [OpOnPanelDisposed] true)) =
    {| panel := None; disposablePanel := Some sim_unit; invalidateOnVisible := None |} /\
  ~ set_together (this (fst (after_show [OpOnPanelDisposed] true))).
Proof.
  unfold set_together. cbn.
  repeat split; try congruence.
  intros [Hu _]. apply Hu; [discriminate | reflexivity].
Qed.

Lemma shows_create_one_panel_witness :
  let hs := [sim_host_no_file; sim_host true; sim_host false] in
  let outs := fst (shows settings_editor hs new_editor) in
  count is_create (all_calls outs) = 1 /\
  exists p,
    panel (snd (shows settings_editor hs new_editor)) = Some p /\
    (fetch_only "/ext/out/ui/settings.html"
       (Returned tt,
        [OpenTextDocument "/ext/out/ui/settings.html"; SetHtml 7 "<h1>A</h1>";
         Reveal 7 Active]) \/
     reveal_only "/ext/out/ui/settings.html" p
       (Returned tt,
        [OpenTextDocument "/ext/out/ui/settings.html"; SetHtml 7 "<h1>A</h1>";
         Reveal 7 Active])).
Proof.
  intros hs outs.
  destruct (shows_create_one_panel settings_editor hs) as (_ & _ & Hone & Hlater).
  split.
  - apply Hone. reflexivity.
  - apply (Hlater 1 2
             [OpenTextDocument "/ext/out/ui/settings.html";
              CreateWebviewPanel "material.settings" "Material Theme Settings"
                Active panel_options;
              Subscribe 7 OnDidDispose HOnPanelDisposed;
              Subscribe 7 OnDidChangeViewState HOnViewStateChanged;
              Subscribe 7 OnDidReceiveMessage HOnMessageReceived;
              SetHtml 7 "<h1>A</h1>"]).
    + apply le_n.
    + reflexivity.
    + reflexivity.
Defined.

(** ** Further properties of the methods *)

Section Steps.

Context {H : Type} {HH : Host H}.
Variable self : EditorMembers.

(** What one operation does to the two lifecycle fields: it leaves them,
    or it is the dispose callback (the panel is cleared, the unit
    released and kept), or it creates a panel where none was stored. *)
Lemma exec_lifecycle :
  forall (op : Op) (w : World H),
    (op <> OpOnPanelDisposed /\
     panel (this (world (exec self op w))) = panel (this w) /\
     disposablePanel (this (world (exec self op w))) = disposablePanel (this w) /\
     count is_create (calls (exec self op w)) = 0) \/
    (op = OpOnPanelDisposed /\
     panel (this (world (exec self op w))) = None /\
     disposablePanel (this (world (exec self op w))) = disposablePanel (this w) /\
     count is_create (calls (exec self op w)) = 0 /\
     (forall d, disposablePanel (this w) = Some d ->
                In (DisposeOf d) (calls (exec self op w)))) \/
    (op <> OpOnPanelDisposed /\
     panel (this w) = None /\
     count is_create (calls (exec self op w)) = 1 /\
     exists p, panel (this (world (exec self op w))) = Some p /\
               disposablePanel (this (world (exec self op w))) = Some (unit_of p)).
Proof.
  intros op [e h].
  destruct op; run_method; repeat next_case;
    solve [ left; repeat split; (congruence || auto)
          | right; left; repeat split; auto;
            intros d' Hd'; inversion Hd'; subst; cbn; auto
          | right; right; repeat split; try congruence; eexists; split; reflexivity ].
Qed.


Lemma run_ops_cons :
  forall (op : Op) (h : H) (rest : list (Op * H)) (e : WebviewEditor),
    fst (run_ops self ((op, h) :: rest) e) =
      fst (run_ops self rest (this (world (exec self op {| this := e; host := h |})))) /\
    snd (run_ops self ((op, h) :: rest) e) =
      calls (exec self op {| this := e; host := h |})
      ++ snd (run_ops self rest (this (world (exec self op {| this := e; host := h |})))).
Proof.
  intros op h rest e. cbn [run_ops].
  destruct (run_ops self rest (this (world (exec self op {| this := e; host := h |}))))
    as [e' t]. split; reflexivity.
Qed.

Lemma exec_well_kept :
  forall (op : Op) (w : World H) (t : list Call) (n : nat),
    well_kept (this w) t n ->
    well_kept (this (world (exec self op w)))
              (t ++ calls (exec self op w))
              (n + (if is_panel_disposed op then 1 else 0)).
Proof.
  intros op w t n (Ha & Hb & Hc).
  assert (Hd : is_panel_disposed op = true <-> op = OpOnPanelDisposed)
    by (destruct op; cbn; split; congruence).
  destruct (exec_lifecycle op w)
    as [(Hop & Hp & Hu & Hn) | [(Hop & Hp & Hu & Hn & Hr) | (Hop & Hp & Hn & q & Hq & Hu)]];
    unfold well_kept; rewrite count_app, Hn.
  - rewrite Hp, Hu.
    destruct (is_panel_disposed op) eqn:Hb'; [exfalso; apply Hop, Hd; reflexivity|].
    repeat split.
    + exact Ha.
    + intros Hnone d Hd'. apply in_or_app. left. eapply Hb; eauto.
    + lia.
  - rewrite Hp, Hu. subst op. cbn [is_panel_disposed].
    repeat split.
    + intros p Hp'. discriminate.
    + intros _ d Hd'. apply in_or_app. right. apply Hr. exact Hd'.
    + destruct (panel (this w)); lia.
  - rewrite Hq, Hu. rewrite Hp in Hc.
    destruct (is_panel_disposed op) eqn:Hb'; [exfalso; apply Hop, Hd; reflexivity|].
    repeat split.
    + intros p Hp'. congruence.
    + intros Hnone. discriminate.
    + lia.
Qed.

Lemma run_ops_well_kept :
  forall (ops : list (Op * H)) (e : WebviewEditor) (t : list Call) (n : nat),
    well_kept e t n ->
    well_kept (fst (run_ops self ops e)) (t ++ snd (run_ops self ops e))
              (n + disposals ops).
Proof.
  induction ops as [|[op h] rest IH]; intros e t n Hk.
  - cbn. rewrite app_nil_r, Nat.add_0_r. exact Hk.
  - destruct (run_ops_cons op h rest e) as (Hf & Hs). rewrite Hf, Hs.
    pose proof (exec_well_kept op {| this := e; host := h |} Hk) as Hstep.
    cbn [this] in Hstep.
    specialize (IH _ _ _ Hstep).
    rewrite <- app_assoc in IH.
    replace (n + disposals ((op, h) :: rest))
      with (n + (if is_panel_disposed op then 1 else 0) + disposals rest).
    + exact IH.
    + unfold disposals. cbn [filter fst].
      destruct (is_panel_disposed op); cbn [length]; lia.
Qed.

Lemma new_editor_well_kept : well_kept new_editor [] 0.
Proof.
  repeat split.
  - intros p Hp. discriminate.
  - intros _ d Hd. discriminate.
  - cbn. lia.
Qed.

End Steps.

Section Lifetime.

Context {H : Type} {HH : Host H}.
Variable self : EditorMembers.

(** X1: after any run of operations on a fresh controller, a stored
    panel has the unit built for it stored beside it. *)
Theorem stored_unit_belongs_to_panel :
  forall (ops : list (Op * H)) (p : WebviewPanel),
    panel (fst (run_ops self ops new_editor)) = Some p ->
    disposablePanel (fst (run_ops self ops new_editor)) = Some (unit_of p).
Proof.
  intros ops p Hp.
  destruct (run_ops_well_kept self ops new_editor_well_kept) as (Ha & _).
  apply Ha. exact Hp.
Qed.

(** X2: after any run of operations on a fresh controller, a unit
    that is stored while no panel is has had its release called. *)
Theorem orphan_unit_was_released :
  forall (ops : list (Op * H)) (d : Disposable),
    panel (fst (run_ops self ops new_editor)) = None ->
    disposablePanel (fst (run_ops self ops new_editor)) = Some d ->
    In (DisposeOf d) (snd (run_ops self ops new_editor)).
Proof.
  intros ops d Hp Hd.
  destruct (run_ops_well_kept self ops new_editor_well_kept) as (_ & Hb & _).
  cbn [app] in Hb. eapply Hb; eauto.
Qed.

(** X3: in any run of operations on a fresh controller, panels are
    created at most once more than the host disposed of one, and no
    more often than that while none is stored at the end. *)
Theorem creations_bounded_by_disposals :
  forall (ops : list (Op * H)),
    count is_create (snd (run_ops self ops new_editor)) <= 1 + disposals ops /\
    (panel (fst (run_ops self ops new_editor)) = None ->
     count is_create (snd (run_ops self ops new_editor)) <= disposals ops).
Proof.
  intros ops.
  destruct (run_ops_well_kept self ops new_editor_well_kept) as (_ & _ & Hc).
  cbn [app Nat.add] in Hc. split.
  - lia.
  - intros Hp. rewrite Hp in Hc. lia.
Qed.

End Lifetime.

Lemma stored_unit_belongs_to_panel_witness :
  disposablePanel
    (fst (run_ops settings_editor
            [(OpShow, sim_host true); (OpPostUpdatedConfiguration, sim_host false)]
            new_editor))
  = Some (unit_of 7).
Proof.
  apply (stored_unit_belongs_to_panel settings_editor
           [(OpShow, sim_host true); (OpPostUpdatedConfiguration, sim_host false)]).
  reflexivity.
Defined.

Lemma orphan_unit_was_released_witness :
  In (DisposeOf sim_unit)
     (snd (run_ops settings_editor
             [(OpShow, sim_host true); (OpOnPanelDisposed, sim_host true)]
             new_editor)).
Proof.
  apply (orphan_unit_was_released settings_editor
           [(OpShow, sim_host true); (OpOnPanelDisposed, sim_host true)]).
  - reflexivity.
  - reflexivity.
Defined.

Lemma creations_bounded_by_disposals_witness :
  let ops := [(OpShow, sim_host true); (OpOnPanelDisposed, sim_host true);
              (OpShow, sim_host true); (OpOnPanelDisposed, sim_host true)] in
  count is_create (snd (run_ops settings_editor ops new_editor)) = 2 /\
  count is_create (snd (run_ops settings_editor ops new_editor)) <= disposals ops.
Proof.
  intros ops. split.
  - reflexivity.
  - apply (proj2 (creations_bounded_by_disposals settings_editor ops)).
    reflexivity.
Defined.

Lemma editor_eq :
  forall (e e' : WebviewEditor),
    panel e' = panel e ->
    disposablePanel e' = disposablePanel e ->
    invalidateOnVisible e' = invalidateOnVisible e ->
    e' = e.
Proof.
  intros [p d i] [p' d' i']. cbn. intros -> -> ->. reflexivity.
Qed.

Section Protocol.

Context {H : Type} {HH : Host H}.
Variable self : EditorMembers.

(** X4: a view-state change that reports the panel hidden, or that
    comes while nothing is pending, writes its console line and does
    nothing else: no fetch, no post, no field written. *)
Theorem onViewStateChanged_ignores :
  forall (event : WebviewPanelOnDidChangeViewStateEvent) (w : World H),
    visible event = false \/ invalidateOnVisible (this w) = None ->
    let r := onViewStateChanged self event w in
    outcome r = Returned RetUndefined /\
    calls r = [ConsoleLog (LogViewStateChanged (visible event))] /\
    world r = w.
Proof.
  intros event [e h] Hc. cbn [this] in Hc. cbv zeta.
  unfold onViewStateChanged, console_log, tell, ask, get_this, bind, ret.
  cbn -[show postUpdatedConfiguration].
  assert (Hg : negb (truthy (invalidateOnVisible e)) || negb (visible event) = true).
  { destruct Hc as [-> | ->]; cbn; [apply orb_true_r | reflexivity]. }
  rewrite Hg. cbn. auto.
Qed.

(** X5: a [postMessage] whose delivery the host confirms posts the
    message to the stored panel, returns [true] and writes no field,
    whatever is pending and whatever class was passed. *)
Theorem postMessage_delivered :
  forall (message : Message) (invalidates : Invalidates) (w : World H)
         (p : WebviewPanel) (h' : H),
    panel (this w) = Some p ->
    host_postMessage p message (host w) = (true, h') ->
    let r := postMessage message invalidates w in
    outcome r = Returned true /\
    calls r = [PostMessage p message] /\
    this (world r) = this w.
Proof.
  intros message invalidates w p h' Hp Hd. cbv zeta.
  pose proof (postMessage_pending message invalidates w Hp Hd) as Hm.
  cbv zeta in Hm. destruct Hm as (Ho & Hc & _ & Hq & Hu & Hi).
  repeat split; auto.
  apply editor_eq; auto.
Qed.

(** X6: a [postMessage] whose delivery the host does not confirm
    always leaves an invalidation pending; when the class is omitted
    it is ['all'], and a pending ['config'] is overwritten by the class
    passed. *)
Theorem postMessage_failed_leaves_pending :
  forall (message : Message) (invalidates : Invalidates) (w : World H)
         (p : WebviewPanel) (h' : H),
    panel (this w) = Some p ->
    host_postMessage p message (host w) = (false, h') ->
    let r := postMessage message invalidates w in
    truthy (invalidateOnVisible (this (world r))) = true /\
    (invalidates = None -> invalidateOnVisible (this (world r)) = Some InvAll) /\
    (invalidateOnVisible (this w) = Some InvConfig ->
     invalidateOnVisible (this (world r)) = default_invalidates invalidates).
Proof.
  intros message invalidates w p h' Hp Hd. cbv zeta.
  pose proof (postMessage_pending message invalidates w Hp Hd) as Hm.
  cbv zeta in Hm. destruct Hm as (_ & _ & _ & _ & _ & Hi).
  rewrite Hi. cbn [negb andb].
  destruct (invalidateOnVisible (this w)) as [[|]|]; cbn;
    destruct invalidates as [[|]|]; cbn; repeat split; congruence.
Qed.

(** What [postUpdatedConfiguration] does: it reads the settings, then
    posts them with class ['config']. *)
Lemma postUpdatedConfiguration_effect :
  forall (w : World H),
    let config := fst (host_getCustomSettings (host w)) in
    let w1 := {| this := this w; host := snd (host_getCustomSettings (host w)) |} in
    let r := postUpdatedConfiguration w in
    let s := postMessage (SettingsChangedMessage config) (Some InvConfig) w1 in
    outcome r = outcome s /\
    calls r = GetCustomSettings :: calls s /\
    world r = world s.
Proof.
  intros [e h]. cbv zeta.
  unfold postUpdatedConfiguration, getCustomSettings, ask, bind.
  cbn -[postMessage].
  destruct (host_getCustomSettings h) as [config h1]. cbn -[postMessage].
  destruct (postMessage _ _ _) as [[b|err] w2 c2]; cbn; auto.
Qed.

(** X7: with no panel stored, [postUpdatedConfiguration] still reads
    the settings, then posts nothing, returns [false] and writes no
    field. *)
Theorem postUpdatedConfiguration_without_panel :
  forall (w : World H),
    panel (this w) = None ->
    let r := postUpdatedConfiguration w in
    outcome r = Returned false /\
    calls r = [GetCustomSettings] /\
    this (world r) = this w /\
    host (world r) = snd (host_getCustomSettings (host w)).
Proof.
  intros w Hp. cbv zeta.
  pose proof (postUpdatedConfiguration_effect w) as He. cbv zeta in He.
  destruct He as (Ho & Hc & Hw).
  rewrite Ho, Hc, Hw.
  unfold postMessage, get_this, bind, ret. cbn. rewrite Hp. cbn. auto.
Qed.


End Protocol.

Lemma onViewStateChanged_ignores_witness :
  let w := sim_world (shown_editor (Some InvAll)) true in
  let hidden := {| webviewPanel := 7; visible := false |} in
  world (onViewStateChanged settings_editor hidden w) = w /\
  calls (onViewStateChanged settings_editor hidden w) =
    [ConsoleLog (LogViewStateChanged false)].
Proof.
  intros w hidden.
  assert (Hc : visible hidden = false \/ invalidateOnVisible (this w) = None)
    by (left; reflexivity).
  destruct (@onViewStateChanged_ignores SimHost _ settings_editor hidden w Hc)
    as (_ & Hcalls & Hw).
  split; [exact Hw | exact Hcalls].
Defined.

Lemma postMessage_delivered_witness :
  let w := sim_world (shown_editor (Some InvConfig)) true in
  this (world (postMessage sample_save None w)) = shown_editor (Some InvConfig).
Proof.
  intros w.
  assert (Hp : panel (this w) = Some 7) by reflexivity.
  assert (Hd : host_postMessage 7 sample_save (host w) = (true, sim_host true))
    by reflexivity.
  destruct (@postMessage_delivered SimHost _ sample_save None w 7 (sim_host true) Hp Hd)
    as (_ & _ & Ht).
  exact Ht.
Defined.

Lemma postMessage_failed_leaves_pending_witness :
  let w := sim_world (shown_editor (Some InvConfig)) false in
  invalidateOnVisible (this (world (postMessage sample_save None w))) = Some InvAll.
Proof.
  intros w.
  assert (Hp : panel (this w) = Some 7) by reflexivity.
  assert (Hd : host_postMessage 7 sample_save (host w) = (false, sim_host false))
    by reflexivity.
  destruct (@postMessage_failed_leaves_pending SimHost _ sample_save None w 7
              (sim_host false) Hp Hd)
    as (_ & Hall & _).
  apply Hall. reflexivity.
Defined.

Lemma postUpdatedConfiguration_without_panel_witness :
  let w := sim_world new_editor true in
  calls (postUpdatedConfiguration w) = [GetCustomSettings] /\
  this (world (postUpdatedConfiguration w)) = new_editor.
Proof.
  intros w.
  assert (Hp : panel (this w) = None) by reflexivity.
  destruct (@postUpdatedConfiguration_without_panel SimHost _ w Hp)
    as (_ & Hc & Ht & _).
  split; [exact Hc | exact Ht].
Defined.

Section Pending.

Context {H : Type} {HH : Host H}.
Variable self : EditorMembers.

(** X8: a pending ['all'] is never weakened or dropped: every
    operation leaves it pending, except a view-state change that
    reports the panel visible. *)
Theorem pending_all_survives :
  forall (op : Op) (w : World H),
    invalidateOnVisible (this w) = Some InvAll ->
    is_visible_change op = false ->
    invalidateOnVisible (this (world (exec self op w))) = Some InvAll.
Proof.
  intros op [e h] Hi Hv. cbn [this] in Hi.
  destruct op; cbn [is_visible_change] in Hv; run_method;
    rewrite ?Hi, ?Hv; cbn; repeat next_case; rewrite ?Hi; cbn; try congruence;
    match goal with
    | Hb : negb _ && negb (is_all _) = true |- _ =>
        rewrite Hi in Hb; cbn in Hb; rewrite andb_false_r in Hb; discriminate
    end.
Qed.


(** X9: [show], [dispose], [onPanelDisposed] and [onMessageReceived]
    never write the pending invalidation: what was pending for a panel
    stays pending when that panel is disposed of and when a new one is
    created. *)
Theorem pending_kept_by_lifecycle :
  forall (op : Op) (w : World H),
    writes_pending op = false ->
    invalidateOnVisible (this (world (exec self op w))) = invalidateOnVisible (this w).
Proof.
  intros op [e h] Hw.
  destruct op; cbn [writes_pending] in Hw; try discriminate;
    run_method; repeat next_case; reflexivity.
Qed.

End Pending.

Lemma pending_all_survives_witness :
  invalidateOnVisible
    (this (world (exec settings_editor OpPostUpdatedConfiguration
                    (sim_world (shown_editor (Some InvAll)) false))))
  = Some InvAll.
Proof.
  apply (pending_all_survives settings_editor OpPostUpdatedConfiguration
           (sim_world (shown_editor (Some InvAll)) false)).
  - reflexivity.
  - reflexivity.
Defined.

Lemma pending_kept_by_lifecycle_witness :
  invalidateOnVisible
    (this (world (exec settings_editor OpOnPanelDisposed
                    (sim_world (shown_editor (Some InvConfig)) true))))
  = Some InvConfig.
Proof.
  apply (pending_kept_by_lifecycle settings_editor OpOnPanelDisposed
           (sim_world (shown_editor (Some InvConfig)) true)).
  reflexivity.
Defined.

Section Recreation.

Context {H : Type} {HH : Host H}.
Variable self : EditorMembers.

(** X11: after the dispose callback the next [show()] whose content
    resolves creates exactly one new panel, stores it with the unit
    built for it in place of the old one, loads the fetched text into
    it, and leaves the pending invalidation as it was before the
    disposal. *)
Theorem onPanelDisposed_then_show :
  forall (w : World H) (h2 h3 : H) (doc : TextDocument),
    host_openTextDocument (page self) h2 = (inr doc, h3) ->
    let e1 := this (world (onPanelDisposed w)) in
    let r := show self {| this := e1; host := h2 |} in
    let p := fst (host_createWebviewPanel (id self) (title self) Active panel_options h3) in
    panel e1 = None /\
    outcome r = Returned tt /\
    count is_create (calls r) = 1 /\
    In (SetHtml p (getText doc)) (calls r) /\
    panel (this (world r)) = Some p /\
    disposablePanel (this (world r)) = Some (unit_of p) /\
    invalidateOnVisible (this (world r)) = invalidateOnVisible (this w).
Proof.
  intros w h2 h3 doc Ho. cbv zeta.
  destruct (onPanelDisposed_effect w) as (_ & Hq & _).
  assert (Hp : panel (this {| this := this (world (onPanelDisposed w)); host := h2 |})
               = None) by (cbn [this]; rewrite Hq; reflexivity).
  pose proof (show_creates self
                {| this := this (world (onPanelDisposed w)); host := h2 |} Hp Ho) as Hs.
  cbv zeta in Hs. destruct Hs as (So & Sc & Sp & Su & Si).
  rewrite So, Sc, Sp, Su, Si. cbn [this]. rewrite Hq.
  repeat split.
  cbn. auto 10.
Qed.

(** X12: an undelivered message is not replayed.  From a state with
    nothing pending, a [postMessage(message, c)] whose delivery fails,
    followed by a view-state change that reports the panel visible:
    for class ['config'] the handler posts exactly one
    [settingsChanged] message holding the settings as they are then,
    for class ['all'] it posts nothing and runs [show()]; [message]
    itself is not sent a second time. *)
Theorem failed_post_then_visible :
  forall (message : Message) (c : InvalidationClass) (w : World H)
         (p : WebviewPanel) (h1 h2 : H)
         (event : WebviewPanelOnDidChangeViewStateEvent),
    panel (this w) = Some p ->
    invalidateOnVisible (this w) = None ->
    host_postMessage p message (host w) = (false, h1) ->
    visible event = true ->
    let w1 := world (postMessage message (Some c) w) in
    let r := onViewStateChanged self event {| this := this w1; host := h2 |} in
    match c with
    | InvConfig =>
        filter is_post (calls r) =
          [PostMessage p (SettingsChangedMessage (fst (host_getCustomSettings h2)))]
    | InvAll =>
        filter is_post (calls r) = [] /\
        count is_fetch (calls r) = 1 /\
        invalidateOnVisible (this (world r)) = None
    end.
Proof.
  intros message c w p h1 h2 event Hp Hi Hd Hv. cbv zeta.
  pose proof (postMessage_pending message (Some c) w Hp Hd) as Hm.
  cbv zeta in Hm. destruct Hm as (_ & _ & _ & Hq & _ & Hn).
  rewrite Hi in Hn. cbn in Hn. rewrite Hp in Hq.
  set (w2 := {| this := this (world (postMessage message (Some c) w)); host := h2 |}).
  assert (Hi2 : invalidateOnVisible (this w2) = Some c) by exact Hn.
  assert (Hp2 : panel (this (cleared w2)) = Some p) by exact Hq.
  pose proof (onViewStateChanged_dispatch self event w2 Hv Hi2) as Hdis.
  cbv zeta in Hdis. destruct c.
  - destruct Hdis as (Hc & Hw & _). rewrite Hc, Hw.
    destruct (host_openTextDocument (page self) (host (cleared w2)))
      as [[err|doc] h3] eqn:Ho.
    + destruct (show_rejected self (cleared w2) Ho) as (_ & Sc & St & _).
      rewrite Sc, St. repeat split.
    + destruct (show_reveals self (cleared w2) Hp2 Ho) as (_ & Sc & St & _).
      rewrite Sc, St. repeat split.
  - destruct Hdis as (Hc & _ & _). rewrite Hc.
    pose proof (postUpdatedConfiguration_effect (cleared w2)) as He.
    cbv zeta in He. destruct He as (_ & Ec & _). rewrite Ec.
    destruct (host_postMessage p
                (SettingsChangedMessage (fst (host_getCustomSettings (host (cleared w2)))))
                (snd (host_getCustomSettings (host (cleared w2)))))
      as [b h3] eqn:Hpost.
    pose proof (postMessage_pending
                  (SettingsChangedMessage (fst (host_getCustomSettings (host (cleared w2)))))
                  (Some InvConfig)
                  {| this := this (cleared w2);
                     host := snd (host_getCustomSettings (host (cleared w2))) |}
                  Hp2 Hpost) as Hm2.
    cbv zeta in Hm2. destruct Hm2 as (_ & Mc & _).
    rewrite Mc. reflexivity.
Qed.

End Recreation.

Lemma onPanelDisposed_then_show_witness :
  let w := sim_world (shown_editor (Some InvConfig)) true in
  let e1 := this (world (onPanelDisposed w)) in
  let r := show settings_editor {| this := e1; host := sim_host true |} in
  count is_create (calls r) = 1 /\
  this (world r) = shown_editor (Some InvConfig).
Proof.
  intros w e1 r.
  assert (Ho : host_openTextDocument (page settings_editor) (sim_host true)
               = (inr {| getText := "<h1>A</h1>" |}, sim_host true)) by reflexivity.
  destruct (@onPanelDisposed_then_show SimHost _ settings_editor w
              (sim_host true) (sim_host true) {| getText := "<h1>A</h1>" |} Ho)
    as (_ & _ & Hc & _ & _ & _ & _).
  split; [exact Hc | reflexivity].
Defined.


Lemma failed_post_then_visible_witness :
  let w := sim_world (shown_editor None) false in
  let w1 := world (postMessage sample_save (Some InvConfig) w) in
  let r := onViewStateChanged settings_editor {| webviewPanel := 7; visible := true |}
             {| this := this w1; host := sim_host true |} in
  filter is_post (calls r) = [PostMessage 7 (SettingsChangedMessage sim_settings_value)].
Proof.
  intros w w1 r.
  assert (Hp : panel (this w) = Some 7) by reflexivity.
  assert (Hi : invalidateOnVisible (this w) = None) by reflexivity.
  assert (Hd : host_postMessage 7 sample_save (host w) = (false, sim_host false))
    by reflexivity.
  assert (Hv : visible {| webviewPanel := 7; visible := true |} = true) by reflexivity.
  exact (@failed_post_then_visible SimHost _ settings_editor sample_save InvConfig w
           7 (sim_host false) (sim_host true)
           {| webviewPanel := 7; visible := true |} Hp Hi Hd Hv).
Defined.


Section Calls.

Context {H : Type} {HH : Host H}.
Variable self : EditorMembers.

(** The calls of one [show()], by case. *)
Lemma show_calls :
  forall (w : World H),
    calls (show self w) = [OpenTextDocument (page self)] \/
    (exists p html,
       panel (this w) = Some p /\
       this (world (show self w)) = this w /\
       calls (show self w) =
         [OpenTextDocument (page self); SetHtml p html; Reveal p Active]) \/
    (exists p html,
       panel (this (world (show self w))) = Some p /\
       disposablePanel (this (world (show self w))) = Some (unit_of p) /\
       calls (show self w) =
         [OpenTextDocument (page self);
          CreateWebviewPanel (id self) (title self) Active panel_options;
          Subscribe p OnDidDispose HOnPanelDisposed;
          Subscribe p OnDidChangeViewState HOnViewStateChanged;
          Subscribe p OnDidReceiveMessage HOnMessageReceived;
          SetHtml p html]).
Proof.
  intros w.
  destruct (host_openTextDocument (page self) (host w)) as [[err|doc] h1] eqn:Ho.
  - left. destruct (show_rejected self w Ho) as (_ & Sc & _). exact Sc.
  - destruct (panel (this w)) as [p|] eqn:Hp.
    + right. left. exists p, (getText doc).
      destruct (show_reveals self w Hp Ho) as (_ & Sc & St & _). auto.
    + right. right.
      pose proof (show_creates self w Hp Ho) as Hs. cbv zeta in Hs.
      destruct Hs as (_ & Sc & Sp & Su & _).
      eexists. exists (getText doc). split; [exact Sp|]. split; [exact Su|exact Sc].
Qed.

(** X13: every listener [show()] registers is registered on the panel
    it stores and is held by the disposal unit it stores, together with
    that panel; the panel is asked for under the editor's id and title,
    in the active column, with all four options enabled. *)
Theorem show_listeners_owned :
  forall (w : World H),
    (forall p ev hd,
       In (Subscribe p ev hd) (calls (show self w)) ->
       panel (this (world (show self w))) = Some p /\
       exists items,
         disposablePanel (this (world (show self w))) = Some (DisposableFrom items) /\
         In (DisposablePanel p) items /\
         In (DisposableListener p ev hd) items) /\
    (forall viewType ttl column options,
       In (CreateWebviewPanel viewType ttl column options) (calls (show self w)) ->
       viewType = id self /\ ttl = title self /\ column = Active /\
       all_enabled options = true).
Proof.
  intros w.
  destruct (show_calls w) as [Hc | [(p & html & _ & _ & Hc) | (p & html & Hp & Hu & Hc)]];
    rewrite Hc; split.
  - intros q ev hd [Hin | []]. discriminate.
  - intros vt ttl col o [Hin | []]. discriminate.
  - intros q ev hd Hin. cbn in Hin.
    destruct Hin as [Hin | [Hin | [Hin | []]]]; discriminate.
  - intros vt ttl col o Hin. cbn in Hin.
    destruct Hin as [Hin | [Hin | [Hin | []]]]; discriminate.
  - intros q ev hd Hin. cbn in Hin.
    destruct Hin as [Hin | [Hin | [Hin | [Hin | [Hin | [Hin | []]]]]]];
      try discriminate; inversion Hin; subst; (split; [exact Hp|]);
      eexists; (split; [exact Hu|]); cbn; auto 10.
  - intros vt ttl col o Hin. cbn in Hin.
    destruct Hin as [Hin | [Hin | [Hin | [Hin | [Hin | [Hin | []]]]]]];
      try discriminate. inversion Hin; subst. repeat split.
Qed.

(** X14: every [show()] reads the page once, at its absolute path, and
    before any other call, whether a panel is stored or not. *)
Theorem show_fetches_first :
  forall (w : World H),
    exists rest,
      calls (show self w) =
        OpenTextDocument (asAbsolutePath (context self) (filename self)) :: rest /\
      count is_fetch rest = 0.
Proof.
  intros w.
  destruct (show_calls w) as [Hc | [(p & html & _ & _ & Hc) | (p & html & _ & _ & Hc)]];
    rewrite Hc; eexists; split; reflexivity.
Qed.


End Calls.


Lemma show_listeners_owned_witness :
  let w := sim_world new_editor true in
  panel (this (world (show settings_editor w))) = Some 7.
Proof.
  intros w.
  destruct (proj1 (show_listeners_owned settings_editor w)
              7 OnDidDispose HOnPanelDisposed) as (Hp & _).
  - cbn. right. right. left. reflexivity.
  - exact Hp.
Defined.

Section Release.

Context {H : Type} {HH : Host H}.
Variable self : EditorMembers.

(** Releasing the stored unit on a host that fires the dispose event
    [fires] times: one call per release, the unit and the pending
    invalidation stay, the panel is cleared as soon as the listener ran. *)
Lemma release_effect :
  forall (fires : nat) (d : Disposable) (w : World H),
    disposablePanel (this w) = Some d ->
    outcome (release fires d w) = Returned tt /\
    calls (release fires d w) = repeat (DisposeOf d) (S fires) /\
    host (world (release fires d w)) = released (S fires) d (host w) /\
    disposablePanel (this (world (release fires d w))) = Some d /\
    invalidateOnVisible (this (world (release fires d w))) =
      invalidateOnVisible (this w) /\
    panel (this (world (release fires d w))) =
      match fires with 0 => panel (this w) | S _ => None end.
Proof.
  induction fires as [|k IH]; intros d [e h] Hd; cbn [this] in Hd.
  - cbn [release]. unfold disposable_dispose, tell, ask. cbn. auto 10.
  - cbn [release].
    unfold onPanelDisposed_with, disposable_dispose, tell, ask, bind, get_this,
      update_this, ret.
    cbn -[release released]. rewrite Hd.
    specialize (IH d {| this := e; host := host_dispose d h |} Hd).
    destruct (release k d {| this := e; host := host_dispose d h |}) as [o w2 c2].
    cbn [outcome calls world this host] in IH.
    destruct IH as (-> & -> & Hh & Hu & Hi & _).
    cbn -[released]. rewrite Hh, app_nil_r.
    repeat split; assumption.
Qed.


Lemma dispose_firing_effect :
  forall (fires : nat) (w : World H),
    outcome (dispose_firing fires w) = Returned tt /\
    match disposablePanel (this w) with
    | Some d =>
        calls (dispose_firing fires w) = repeat (DisposeOf d) (S fires) /\
        disposablePanel (this (world (dispose_firing fires w))) = Some d /\
        invalidateOnVisible (this (world (dispose_firing fires w))) =
          invalidateOnVisible (this w) /\
        panel (this (world (dispose_firing fires w))) =
          match fires with 0 => panel (this w) | S _ => None end
    | None =>
        calls (dispose_firing fires w) = [] /\ world (dispose_firing fires w) = w
    end.
Proof.
  intros fires w. unfold dispose_firing, dispose_with, get_this, bind, ret.
  cbn -[release].
  destruct (disposablePanel (this w)) as [d|] eqn:Hd.
  - destruct (release_effect fires w Hd) as (Ho & Hc & _ & Hu & Hi & Hp).
    destruct (release fires d w) as [o w2 c2]. cbn in *. subst o c2. auto 10.
  - cbn. auto.
Qed.

Lemma onPanelDisposed_firing_effect :
  forall (fires : nat) (w : World H),
    outcome (onPanelDisposed_firing fires w) = Returned tt /\
    panel (this (world (onPanelDisposed_firing fires w))) = None /\
    disposablePanel (this (world (onPanelDisposed_firing fires w))) =
      disposablePanel (this w) /\
    calls (onPanelDisposed_firing fires w) =
      match disposablePanel (this w) with
      | Some d => repeat (DisposeOf d) (S fires)
      | None => []
      end.
Proof.
  intros fires w.
  unfold onPanelDisposed_firing, onPanelDisposed_with, get_this, update_this, bind, ret.
  cbn -[release].
  destruct (disposablePanel (this w)) as [d|] eqn:Hd.
  - destruct (release_effect fires w Hd) as (Ho & Hc & _ & Hu & _ & _).
    destruct (release fires d w) as [o w2 c2]. cbn in *. subst o c2.
    rewrite app_nil_r. auto.
  - cbn. auto.
Qed.

(** With no event fired these are the methods as they stand. *)
Lemma firing_zero :
  forall (w : World H),
    dispose_firing 0 w = dispose w /\ onPanelDisposed_firing 0 w = onPanelDisposed w.
Proof.
  intros w. split; reflexivity.
Qed.

(** C10: [dispose()] has no write to the panel field of its own.  When
    the host fires nothing during the release, [dispose()] writes no
    field, the stored panel stays stored and the [show()] that follows
    takes the reveal path on it without asking for a new panel.  When
    the release fires the panel's dispose event, the listener
    [onPanelDisposed] runs inside [dispose()] and clears the field, and
    the [show()] that follows creates a panel as soon as its content
    resolves.  Of the operations, run as steps, only [onPanelDisposed]
    clears the field. *)
Theorem dispose_keeps_panel_unless_listener_runs :
  forall (fires : nat) (w : World H) (p : WebviewPanel) (d : Disposable),
    panel (this w) = Some p ->
    disposablePanel (this w) = Some d ->
    let r := dispose_firing fires w in
    let s := show self (world r) in
    let page := asAbsolutePath (context self) (filename self) in
    disposablePanel (this (world r)) = Some d /\
    invalidateOnVisible (this (world r)) = invalidateOnVisible (this w) /\
    match fires with
    | 0 =>
        r = dispose w /\
        this (world r) = this w /\
        panel (this (world r)) = Some p /\
        count is_create (calls s) = 0 /\
        match fst (host_openTextDocument page (host (world r))) with
        | inr doc =>
            outcome s = Returned tt /\
            calls s = [OpenTextDocument page; SetHtml p (getText doc); Reveal p Active]
        | inl e =>
            outcome s = Threw e /\
            calls s = [OpenTextDocument page]
        end
    | S _ =>
        panel (this (world r)) = None /\
        count is_create (calls s) =
          (if content_resolves self (host (world r)) then 1 else 0)
    end /\
    (forall op : Op, op <> OpOnPanelDisposed ->
       panel (this (world (exec self op w))) = Some p) /\
    panel (this (world (onPanelDisposed w))) = None.
Proof.
  intros fires w p d Hp Hd. cbv zeta.
  destruct (dispose_firing_effect fires w) as (_ & Hf). rewrite Hd in Hf.
  destruct Hf as (_ & Hu & Hi & Hq).
  destruct (onPanelDisposed_effect w) as (_ & Hcb & _).
  split; [exact Hu|]. split; [exact Hi|]. split; [|split].
  - destruct fires as [|k].
    + destruct (firing_zero w) as (Hz & _). rewrite Hz.
      destruct (dispose_effect w) as (_ & Ht & _).
      assert (Hp' : panel (this (world (dispose w))) = Some p)
        by (rewrite Ht; exact Hp).
      split; [reflexivity|]. split; [exact Ht|]. split; [exact Hp'|].
      set (w1 := world (dispose w)) in *. clearbody w1.
      destruct (host_openTextDocument
                  (asAbsolutePath (context self) (filename self)) (host w1))
        as [[e|doc] h1] eqn:Ho; cbn [fst].
      * destruct (show_rejected self w1 Ho) as (So & Sc & _).
        rewrite So, Sc. auto.
      * destruct (show_reveals self w1 Hp' Ho) as (So & Sc & _).
        rewrite So, Sc. auto.
    + split; [exact Hq|].
      set (w1 := world (dispose_firing (S k) w)) in *. clearbody w1.
      unfold content_resolves.
      destruct (host_openTextDocument (page self) (host w1))
        as [[e|doc] h1] eqn:Ho; cbn [fst].
      * destruct (show_rejected self w1 Ho) as (_ & Sc & _).
        rewrite Sc. reflexivity.
      * destruct (show_creates self w1 Hq Ho) as (_ & Sc & _).
        rewrite Sc. reflexivity.
  - intros op Hop. apply exec_keeps_panel; assumption.
  - rewrite Hcb. reflexivity.
Qed.

(** C6: [dispose()] and [onPanelDisposed()] call the release of the
    stored unit once, and once more for every time the host runs the
    dispose listener meanwhile; neither ever clears the stored unit, so
    a later call of either releases the same unit again, as often.
    With no listener run [dispose()] writes no field.  With no unit
    stored neither makes a call. *)
Theorem dispose_releases_on_every_call :
  forall (fires later : nat) (w : World H) (d : Disposable),
    disposablePanel (this w) = Some d ->
    let r := dispose_firing fires w in
    let q := onPanelDisposed_firing fires w in
    calls r = repeat (DisposeOf d) (S fires) /\
    calls q = repeat (DisposeOf d) (S fires) /\
    count is_release (calls r) = S fires /\
    disposablePanel (this (world r)) = Some d /\
    disposablePanel (this (world q)) = Some d /\
    calls (dispose_firing later (world r)) = repeat (DisposeOf d) (S later) /\
    calls (onPanelDisposed_firing later (world r)) = repeat (DisposeOf d) (S later) /\
    calls (dispose_firing later (world q)) = repeat (DisposeOf d) (S later) /\
    (fires = 0 -> r = dispose w /\ this (world r) = this w) /\
    (forall w0 : World H,
       disposablePanel (this w0) = None ->
       calls (dispose_firing fires w0) = [] /\
       world (dispose_firing fires w0) = w0 /\
       calls (onPanelDisposed_firing fires w0) = []).
Proof.
  intros fires later w d Hd. cbv zeta.
  destruct (dispose_firing_effect fires w) as (_ & Hr). rewrite Hd in Hr.
  destruct Hr as (Hrc & Hru & _ & _).
  destruct (onPanelDisposed_firing_effect fires w) as (_ & _ & Hqu & Hqc).
  rewrite Hd in Hqu, Hqc.
  destruct (dispose_firing_effect later (world (dispose_firing fires w))) as (_ & H1).
  rewrite Hru in H1. destruct H1 as (H1 & _).
  destruct (onPanelDisposed_firing_effect later (world (dispose_firing fires w)))
    as (_ & _ & _ & H2).
  rewrite Hru in H2.
  destruct (dispose_firing_effect later (world (onPanelDisposed_firing fires w)))
    as (_ & H3).
  rewrite Hqu in H3. destruct H3 as (H3 & _).
  repeat (split; [assumption|]).
  split; [|split; [assumption|split; [assumption|split;
    [assumption|split; [assumption|split; [assumption|split]]]]]].
  - rewrite Hrc. clear. induction fires as [|k IH]; [reflexivity|].
    cbn in *. unfold count in *. cbn in *. rewrite IH. reflexivity.
  - intros ->. destruct (firing_zero w) as (Hz & _). rewrite Hz.
    destruct (dispose_effect w) as (_ & Ht & _). auto.
  - intros w0 Hn.
    destruct (dispose_firing_effect fires w0) as (_ & Hw0). rewrite Hn in Hw0.
    destruct (onPanelDisposed_firing_effect fires w0) as (_ & _ & _ & Hq0).
    rewrite Hn in Hq0. destruct Hw0. auto.
Qed.

End Release.

(** After [show()] on a host that fires the dispose event when the
    panel is released: [dispose()] clears the panel field, and the
    [show()] that follows creates a second panel. *)
Lemma dispose_with_listener_clears_panel :
  let w := fst (after_show [] true) in
  let r := dispose_firing 1 w in
  let s := show settings_editor (world r) in
  panel (this w) = Some 7 /\
  panel (this (world r)) = None /\
  count is_create (calls s) = 1 /\
  panel (this (world s)) = Some 8.
Proof.
  cbn. repeat split.
Qed.

(** After [show()]: on a host that fires the dispose event the first
    [dispose()] calls the unit's release twice; on one that fires
    nothing a second [dispose()], or the dispose callback after a first
    [dispose()], calls it again. *)
Lemma dispose_releases_more_than_once :
  let w := fst (after_show [] true) in
  calls (dispose_firing 1 w) = [DisposeOf sim_unit; DisposeOf sim_unit] /\
  count is_release (calls (dispose_firing 1 w)) <> 1 /\
  calls (dispose w) = [DisposeOf sim_unit] /\
  calls (dispose (world (dispose w))) = [DisposeOf sim_unit] /\
  calls (onPanelDisposed (world (dispose w))) = [DisposeOf sim_unit] /\
  count is_release (snd (after_show [OpDispose; OpDispose] true)) <> 1 /\
  sim_released (host (world (dispose (world (dispose w))))) = [sim_unit; sim_unit].
Proof.
  cbn. repeat split; discriminate.
Qed.

Lemma dispose_keeps_panel_unless_listener_runs_witness :
  let w := sim_world (shown_editor None) true in
  (panel (this (world (dispose_firing 0 w))) = Some 7 /\
   calls (show settings_editor (world (dispose_firing 0 w))) =
     [OpenTextDocument "/ext/out/ui/settings.html"; SetHtml 7 "<h1>A</h1>";
      Reveal 7 Active]) /\
  (panel (this (world (dispose_firing 1 w))) = None /\
   count is_create (calls (show settings_editor (world (dispose_firing 1 w)))) = 1).
Proof.
  intros w.
  assert (Hp : panel (this w) = Some 7) by reflexivity.
  assert (Hd : disposablePanel (this w) = Some sim_unit) by reflexivity.
  split.
  - destruct (@dispose_keeps_panel_unless_listener_runs SimHost _ settings_editor
                0 w 7 sim_unit Hp Hd)
      as (_ & _ & (_ & _ & Hq & _ & (_ & Hc)) & _).
    split; [exact Hq | exact Hc].
  - destruct (@dispose_keeps_panel_unless_listener_runs SimHost _ settings_editor
                1 w 7 sim_unit Hp Hd)
      as (_ & _ & (Hq & Hc) & _).
    split; [exact Hq | exact Hc].
Defined.

Lemma dispose_releases_on_every_call_witness :
  let w := sim_world (shown_editor None) true in
  calls (dispose_firing 1 w) = [DisposeOf sim_unit; DisposeOf sim_unit] /\
  calls (dispose_firing 0 (world (dispose_firing 1 w))) = [DisposeOf sim_unit].
Proof.
  intros w.
  assert (Hd : disposablePanel (this w) = Some sim_unit) by reflexivity.
  destruct (@dispose_releases_on_every_call SimHost _ 1 0 w sim_unit Hd)
    as (Hr & _ & _ & _ & _ & Hl & _).
  split; [exact Hr | exact Hl].
Defined.
